(** * ComposioAPIComponent: a shallow embedding of
    [langflow/components/composio/composio_api.py]

  The component is an adapter between the host framework's
  [build_config] dictionary and the Composio SDK.  The SDK is not part of
  the repository: it is an oracle (record [Vendor]) whose every operation
  either returns or raises.  Component methods run in a small
  state-and-exception monad over a [world] made of the shared, mutated
  [build_config] dictionary and the log of SDK calls issued so far.

  Strings are [String.string] (8-bit characters); [lower] is Python's
  [str.lower] on the ASCII range, which is the range of the SDK's
  identifiers.  Calls to the [loguru] logger produce no value and touch no
  state of the component; they are left out. *)

From Stdlib Require Import String Ascii List NArith Bool Permutation.
From stdpp Require Import gmap strings list fin_maps.
Import ListNotations.
Local Open Scope string_scope.

(** ** Python string primitives *)

Module PyStr.

(** [c.lower()] for one 8-bit character. *)
Definition lower_ascii (c : ascii) : ascii :=
  let n := N_of_ascii c in
  if ((65 <=? n) && (n <=? 90))%N then ascii_of_N (n + 32) else c.

(** [s.lower()] *)
Fixpoint lower (s : string) : string :=
  match s with
  | EmptyString => EmptyString
  | String c s' => String (lower_ascii c) (lower s')
  end.

(** [s.startswith(p)] *)
Fixpoint startswith (s p : string) {struct p} : bool :=
  match p with
  | EmptyString => true
  | String a p' =>
      match s with
      | EmptyString => false
      | String b s' => Ascii.eqb a b && startswith s' p'
      end
  end.

(** [sub in s] *)
Fixpoint contains (sub s : string) : bool :=
  startswith s sub ||
  match s with
  | EmptyString => false
  | String _ s' => contains sub s'
  end.

(** Left-to-right scan of [s.replace(old, new)] for a non-empty [old]:
    [skip] counts the characters of a match that are still to be dropped. *)
Fixpoint replace_from (old new : string) (skip : nat) (s : string) : string :=
  match s with
  | EmptyString => EmptyString
  | String c s' =>
      match skip with
      | S k => replace_from old new k s'
      | O =>
          if startswith s old
          then new ++ replace_from old new (String.length old - 1) s'
          else String c (replace_from old new 0 s')
      end
  end.

(** With an empty [old], Python puts [new] before every character and at
    the end. *)
Fixpoint intersperse (new s : string) : string :=
  match s with
  | EmptyString => new
  | String c s' => new ++ String c (intersperse new s')
  end.

(** [s.replace(old, new)] *)
Definition replace (s old new : string) : string :=
  match old with
  | EmptyString => intersperse new s
  | String _ _ => replace_from old new 0 s
  end.

End PyStr.

(** ** Exceptions *)

(** The subclasses of [Exception] that can reach the component.
  [NoItemsFound] is the SDK's "item not found"; [VendorError] stands for
  every other exception the SDK or the network raises. *)
Inductive exn : Type :=
| NoItemsFound (msg : string)
| VendorError (msg : string)
| KeyError (key : string)
| IndexError (msg : string)
| AttributeError (msg : string).

(** [isinstance(e, NoItemsFound)] *)
Definition is_NoItemsFound (e : exn) : bool :=
  match e with NoItemsFound _ => true | _ => false end.

(** [str(e)] *)
Definition exn_str (e : exn) : string :=
  match e with
  | NoItemsFound m | VendorError m | IndexError m | AttributeError m => m
  | KeyError k => "'" ++ k ++ "'"
  end.

Inductive result (A : Type) : Type :=
| Ok (a : A)
| Raise (e : exn).
Arguments Ok {A} a.
Arguments Raise {A} e.

(** ** The host framework's configuration dictionary *)

Inductive pyval : Type :=
| VNone
| VBool (b : bool)
| VStr (s : string)
| VList (l : list string).

(** [build_config]: field name -> attribute name -> value. *)
Abbreviation field_config := (gmap string pyval).
Abbreviation build_config := (gmap string (gmap string pyval)).

(** ** The SDK *)

(** Keyword arguments of [entity.initiate_connection]. *)
Record initiate_args : Type := {
  ia_app_name : string;
  ia_auth_mode : option string;
  ia_auth_config : option (list (string * string));
  ia_use_composio_auth : bool;
  ia_force_new_integration : bool
}.

Record auth_scheme : Type := { auth_mode : string }.
Record connection_request : Type := { redirectUrl : string }.

(** One entry of the log per SDK call, with the call's arguments. *)
Inductive call : Type :=
| CallComposioToolSet (api_key : string)
| CallGetEntity (id : string)
| CallGetConnection (app : string)
| CallGetConnections
| CallAppsGet (app : string)
| CallInitiateConnection (args : initiate_args)
| CallGetTools (actions : list string).

Record Vendor (ToolSet Entity Tool : Type) : Type := {
  (** [ComposioToolSet(api_key=...)] *)
  ComposioToolSet : string -> result ToolSet;
  (** [toolset.client.get_entity(id=...)] *)
  get_entity : ToolSet -> string -> result Entity;
  (** [entity.get_connection(app=...)] *)
  get_connection : Entity -> string -> result unit;
  (** [[c.appUniqueId for c in entity.get_connections()]] *)
  get_connections : Entity -> result (list string);
  (** [toolset.client.apps.get(app).auth_schemes] *)
  apps_get : ToolSet -> string -> result (list auth_scheme);
  (** [entity.initiate_connection(...)] *)
  initiate_connection : Entity -> initiate_args -> result connection_request;
  (** [toolset.get_tools(actions=...)] *)
  get_tools : ToolSet -> list string -> result (list Tool);
  (** [list(App.__annotations__)] and [list(Action.__annotations__)] *)
  App_annotations : list string;
  Action_annotations : list string
}.
Arguments ComposioToolSet {_ _ _} _ _.
Arguments get_entity {_ _ _} _ _ _.
Arguments get_connection {_ _ _} _ _ _.
Arguments get_connections {_ _ _} _ _.
Arguments apps_get {_ _ _} _ _ _.
Arguments initiate_connection {_ _ _} _ _ _.
Arguments get_tools {_ _ _} _ _ _.
Arguments App_annotations {_ _ _} _.
Arguments Action_annotations {_ _ _} _.

(** ** The monad of component methods *)

Record world : Type := {
  config : build_config;
  calls : list call
}.

Definition M (A : Type) : Type := world -> world * result A.

Definition ret {A} (a : A) : M A := fun w => (w, Ok a).

Definition raise {A} (e : exn) : M A := fun w => (w, Raise e).

Definition bind {A B} (m : M A) (k : A -> M B) : M B :=
  fun w =>
    match m w with
    | (w', Ok a) => k a w'
    | (w', Raise e) => (w', Raise e)
    end.

(** [try: m  except Exception as e: h e] *)
Definition try_except {A} (m : M A) (h : exn -> M A) : M A :=
  fun w =>
    match m w with
    | (w', Ok a) => (w', Ok a)
    | (w', Raise e) => h e w'
    end.

(** [try: m  except NoItemsFound: h]: any other exception keeps going up. *)
Definition try_except_NoItemsFound {A} (m : M A) (h : M A) : M A :=
  try_except m (fun e => if is_NoItemsFound e then h else raise e).

Notation "'let*' x ':=' m 'in' k" := (bind m (fun x => k))
  (at level 10, x name, m at level 100, k at level 200, only parsing).

(** An SDK call: logged, then answered by the oracle. *)
Definition sdk {A} (c : call) (r : result A) : M A :=
  fun w => ({| config := config w; calls := calls w ++ [c] |}, r).

(** [build_config[field][key] = v]: [KeyError] when [field] is missing. *)
Definition set_item (field key : string) (v : pyval) : M unit :=
  fun w =>
    match config w !! field with
    | Some d =>
        ({| config := <[field := <[key := v]> d]> (config w); calls := calls w |},
         Ok tt)
    | None => (w, Raise (KeyError field))
    end.

(** The dictionary the caller holds once the method is over. *)
Definition get_config : M build_config := fun w => (w, Ok (config w)).

(** ** The component *)

(** The attributes of [self] the methods read.  [api_key] is [None] when
  [hasattr(self, "api_key")] is false; [auth_status_config] is declared by
  no input of the component, so it may be missing as well. *)
Record ComposioAPIComponent : Type := {
  entity_id : string;
  api_key : option string;
  app_names : string;
  auth_status_config : option string;
  action_names : list string
}.

(** [hasattr(self, "api_key") and self.api_key != ""] *)
Definition has_api_key (self : ComposioAPIComponent) : bool :=
  match api_key self with
  | Some k => negb (String.eqb k "")
  | None => false
  end.

(** [l[0]] *)
Definition index0 {A} (l : list A) : M A :=
  match l with
  | x :: _ => ret x
  | [] => raise (IndexError "list index out of range")
  end.

(** [app_name=app, use_composio_auth=True, force_new_integration=True] *)
Definition default_connection_args (app : string) : initiate_args :=
  {| ia_app_name := app; ia_auth_mode := None; ia_auth_config := None;
     ia_use_composio_auth := true; ia_force_new_integration := true |}.

(** [app_name=app, auth_mode="API_KEY", auth_config={"api_key": key},
    use_composio_auth=False, force_new_integration=True] *)
Definition api_key_connection_args (app key : string) : initiate_args :=
  {| ia_app_name := app; ia_auth_mode := Some "API_KEY";
     ia_auth_config := Some [("api_key", key)];
     ia_use_composio_auth := false; ia_force_new_integration := true |}.

Section Component.

Context {ToolSet Entity Tool : Type}.
Variable vendor : Vendor ToolSet Entity Tool.
Variable self : ComposioAPIComponent.

(** [ComposioToolSet(api_key=self.api_key)] *)
Definition _build_wrapper : M ToolSet :=
  match api_key self with
  | Some k => sdk (CallComposioToolSet k) (ComposioToolSet vendor k)
  | None => raise (AttributeError "api_key")
  end.

(** [toolset.client.get_entity(id=self.entity_id)] *)
Definition client_get_entity (toolset : ToolSet) : M Entity :=
  sdk (CallGetEntity (entity_id self)) (get_entity vendor toolset (entity_id self)).

(** [entity.get_connection(app=app)] *)
Definition entity_get_connection (entity : Entity) (app : string) : M unit :=
  sdk (CallGetConnection app) (get_connection vendor entity app).

(** [toolset.client.apps.get(app).auth_schemes] *)
Definition client_apps_get (toolset : ToolSet) (app : string) : M (list auth_scheme) :=
  sdk (CallAppsGet app) (apps_get vendor toolset app).

(** [entity.initiate_connection] with the keyword arguments [args] *)
Definition entity_initiate_connection (entity : Entity) (args : initiate_args)
  : M connection_request :=
  sdk (CallInitiateConnection args) (initiate_connection vendor entity args).

Definition _initiate_default_connection (entity : Entity) (app : string) : M string :=
  let* connection := entity_initiate_connection entity (default_connection_args app) in
  ret (redirectUrl connection).

Definition _process_api_key_auth (entity : Entity) (app : string) : M string :=
  match auth_status_config self with
  | None => raise (AttributeError "auth_status_config")
  | Some status =>
      let is_url := PyStr.contains "http" status || PyStr.contains "https" status in
      let is_different_app :=
        PyStr.contains "CONNECTED" status && negb (PyStr.contains app status) in
      let is_default_api_key_message := PyStr.contains "API Key" status in
      if is_different_app || is_url || is_default_api_key_message
      then ret "Enter API Key"
      else if negb is_default_api_key_message
      then
        let* _ := entity_initiate_connection entity (api_key_connection_args app status) in
        ret (app ++ " CONNECTED")
      else ret "Enter API Key"
  end.

Definition _handle_authorization_failure
    (toolset : ToolSet) (entity : Entity) (app : string) : M string :=
  try_except
    (let* auth_schemes := client_apps_get toolset app in
     let* first := index0 auth_schemes in
     if String.eqb (auth_mode first) "API_KEY"
     then _process_api_key_auth entity app
     else _initiate_default_connection entity app)
    (fun _ => ret "Error").

(** The [return] that follows the [try] cannot raise, so it is the last
    step of the guarded block. *)
Definition _check_for_authorization (app : string) : M string :=
  let* toolset := _build_wrapper in
  let* entity := client_get_entity toolset in
  try_except
    (let* _ := entity_get_connection entity app in
     ret (app ++ " CONNECTED"))
    (fun _ => _handle_authorization_failure toolset entity app).

(** [list({connection.appUniqueId for connection in connections})] *)
Definition _get_connected_app_names_for_entity : M (list string) :=
  let* toolset := _build_wrapper in
  let* entity := client_get_entity toolset in
  let* connections := sdk CallGetConnections (get_connections vendor entity) in
  ret (elements (list_to_set connections : gset string)).

(** [app_name.lower() in connected_app_names] *)
Definition is_connected (connected_app_names : list string) (app_name : string) : bool :=
  bool_decide (PyStr.lower app_name ∈ connected_app_names).

Definition _update_app_names_with_connected_status : M unit :=
  let* connected_app_names := _get_connected_app_names_for_entity in
  let app_names :=
    map (fun app_name => app_name ++ "_CONNECTED")
        (List.filter (is_connected connected_app_names) (App_annotations vendor)) in
  let non_connected_app_names :=
    List.filter (fun app_name => negb (is_connected connected_app_names app_name))
                (App_annotations vendor) in
  let* _ := set_item "app_names" "options" (VList (app_names ++ non_connected_app_names)) in
  set_item "app_names" "value" (VStr (hd "" app_names)).

Definition _get_normalized_app_name : string :=
  PyStr.replace (PyStr.replace (app_names self) "_CONNECTED" "") "_connected" "".

(** Lines 169-183: the connection lookup and its [except NoItemsFound]. *)
Definition resolve_status (toolset : ToolSet) (entity : Entity) (app_name : string)
  : M unit :=
  try_except_NoItemsFound
    (let* _ := entity_get_connection entity app_name in
     let* _ := set_item "auth_status" "value" (VStr (app_name ++ " CONNECTED")) in
     set_item "auth_link" "value" (VStr ""))
    (let* auth_schemes := client_apps_get toolset app_name in
     let* first := index0 auth_schemes in
     if String.eqb (auth_mode first) "API_KEY"
     then
       let* _ := set_item "auth_status" "value" (VStr "Enter API Key") in
       set_item "auth_link" "value" (VStr "")
     else
       let* auth_url := _initiate_default_connection entity app_name in
       let* _ := set_item "auth_link" "value" (VStr auth_url) in
       set_item "auth_status" "value" (VStr "Click link to authenticate")).

(** Lines 167-183: the block guarded by [except Exception as e]. *)
Definition check_auth_status (app_name : string) : M unit :=
  let* toolset := _build_wrapper in
  let* entity := client_get_entity toolset in
  resolve_status toolset entity app_name.

(** [action_name.lower().startswith(app_name.lower() + "_")] *)
Definition is_app_action (app_name action_name : string) : bool :=
  PyStr.startswith (PyStr.lower action_name) (PyStr.lower app_name ++ "_").

Definition update_build_config (field_value : pyval) (field_name : option string)
  : M build_config :=
  if bool_decide (field_name = Some "api_key")
  then
    let* _ :=
      (if has_api_key self then _update_app_names_with_connected_status else ret tt) in
    get_config
  else if bool_decide (field_name = Some "app_names") && has_api_key self
  then
    let app_name := _get_normalized_app_name in
    let* _ :=
      try_except (check_auth_status app_name)
        (fun e =>
           let* _ := set_item "auth_link" "value" (VStr "") in
           set_item "auth_status" "value" (VStr ("Error: " ++ exn_str e))) in
    let all_action_names := Action_annotations vendor in
    let app_action_names := List.filter (is_app_action app_name) all_action_names in
    let* _ := set_item "action_names" "options" (VList app_action_names) in
    let* _ := set_item "action_names" "value" (VList [hd "" app_action_names]) in
    get_config
  else get_config.

Definition build_tool : M (list Tool) :=
  let* composio_toolset := _build_wrapper in
  sdk (CallGetTools (action_names self))
      (get_tools vendor composio_toolset (action_names self)).

End Component.

(** A method call from the host: the caller's dictionary, an empty call log. *)
Definition enter (bc : build_config) : world := {| config := bc; calls := [] |}.

(** [d[field][key]], when both are there. *)
Definition item (bc : build_config) (field key : string) : option pyval :=
  match bc !! field with
  | Some d => d !! key
  | None => None
  end.

(** ** Vocabulary of the statements *)

(** The dictionary after [bc[field][key] = v], for a [field] that is there. *)
Definition assign (field key : string) (v : pyval) (bc : build_config) : build_config :=
  match bc !! field with
  | Some d => <[field := <[key := v]> d]> bc
  | None => bc
  end.

(** The fields [update_build_config] subscripts on an [app_names] update;
  the component declares an input for each one. *)
Definition has_status_fields (bc : build_config) : Prop :=
  is_Some (bc !! "auth_status") /\ is_Some (bc !! "auth_link") /\
  is_Some (bc !! "action_names").

(** The world after one more SDK call. *)
Definition logged (c : call) (w : world) : world :=
  {| config := config w; calls := calls w ++ [c] |}.

Definition set_config (bc : build_config) (w : world) : world :=
  {| config := bc; calls := calls w |}.

Section Outcome.

Context {ToolSet Entity Tool : Type}.
Variable vendor : Vendor ToolSet Entity Tool.
Variable self : ComposioAPIComponent.

Let app_name := _get_normalized_app_name self.

(** The actions offered for the selected app. *)
Definition app_action_names : list string :=
  List.filter (is_app_action app_name) (Action_annotations vendor).

(** The dictionary once the action list has been refreshed. *)
Definition with_actions (bc : build_config) : build_config :=
  assign "action_names" "value" (VList [hd "" app_action_names])
    (assign "action_names" "options" (VList app_action_names) bc).

(** The dictionary once [except Exception as e] has run. *)
Definition with_error (e : exn) (bc : build_config) : build_config :=
  assign "auth_status" "value" (VStr ("Error: " ++ exn_str e))
    (assign "auth_link" "value" (VStr "") bc).

(** What the caller gets when the guarded block stopped in [w1] with [r]. *)
Definition after_status_check (w1 : world) (r : result unit) : world * result build_config :=
  let bc1 := match r with
             | Ok _ => config w1
             | Raise e => with_error e (config w1)
             end in
  (set_config (with_actions bc1) w1, Ok (with_actions bc1)).

End Outcome.

(** A computation that leaves the set of fields of the dictionary as it is. *)
Definition keeps_fields {A} (m : M A) : Prop :=
  forall w w' r, m w = (w', r) ->
  forall f, is_Some (config w' !! f) <-> is_Some (config w !! f).

(** The toolset and the entity handle the SDK hands out for [self]. *)
Definition session {ToolSet Entity Tool : Type} (vendor : Vendor ToolSet Entity Tool)
    (self : ComposioAPIComponent) (k : string) (toolset : ToolSet) (entity : Entity)
  : Prop :=
  api_key self = Some k /\
  ComposioToolSet vendor k = Ok toolset /\
  get_entity vendor toolset (entity_id self) = Ok entity.

(** The world once the toolset and the entity handle have been obtained. *)
Definition in_session (self : ComposioAPIComponent) (k : string) (w : world) : world :=
  logged (CallGetEntity (entity_id self)) (logged (CallComposioToolSet k) w).

(** The prior status text that [_process_api_key_auth] does not take for a
    key: a URL, another app's "CONNECTED" message, or the "API Key" prompt. *)
Definition not_a_key (app status : string) : bool :=
  PyStr.contains "CONNECTED" status && negb (PyStr.contains app status)
  || (PyStr.contains "http" status || PyStr.contains "https" status)
  || PyStr.contains "API Key" status.

Section Failures.

Context {ToolSet Entity Tool : Type}.
Variable vendor : Vendor ToolSet Entity Tool.
Variable self : ComposioAPIComponent.

(** The ways the status check of [update_build_config] ends in an exception:
    each SDK call may raise, the SDK's "item not found" of the lookup apart,
    and the list of auth schemes may be empty. *)
Inductive status_check_failure (app : string) : exn -> Prop :=
| fail_toolset k e :
    api_key self = Some k ->
    ComposioToolSet vendor k = Raise e ->
    status_check_failure app e
| fail_entity k toolset e :
    api_key self = Some k ->
    ComposioToolSet vendor k = Ok toolset ->
    get_entity vendor toolset (entity_id self) = Raise e ->
    status_check_failure app e
| fail_lookup k toolset entity e :
    session vendor self k toolset entity ->
    get_connection vendor entity app = Raise e ->
    is_NoItemsFound e = false ->
    status_check_failure app e
| fail_schemes k toolset entity e0 e :
    session vendor self k toolset entity ->
    get_connection vendor entity app = Raise e0 ->
    is_NoItemsFound e0 = true ->
    apps_get vendor toolset app = Raise e ->
    status_check_failure app e
| fail_no_scheme k toolset entity e0 :
    session vendor self k toolset entity ->
    get_connection vendor entity app = Raise e0 ->
    is_NoItemsFound e0 = true ->
    apps_get vendor toolset app = Ok [] ->
    status_check_failure app (IndexError "list index out of range")
| fail_initiate k toolset entity e0 scheme schemes e :
    session vendor self k toolset entity ->
    get_connection vendor entity app = Raise e0 ->
    is_NoItemsFound e0 = true ->
    apps_get vendor toolset app = Ok (scheme :: schemes) ->
    String.eqb (auth_mode scheme) "API_KEY" = false ->
    initiate_connection vendor entity (default_connection_args app) = Raise e ->
    status_check_failure app e.

(** The ways the block guarded inside [_handle_authorization_failure] ends
    in an exception. *)
Inductive authorization_failure (toolset : ToolSet) (entity : Entity) (app : string)
  : exn -> Prop :=
| auth_fail_schemes e :
    apps_get vendor toolset app = Raise e ->
    authorization_failure toolset entity app e
| auth_fail_no_scheme :
    apps_get vendor toolset app = Ok [] ->
    authorization_failure toolset entity app (IndexError "list index out of range")
| auth_fail_no_status scheme schemes :
    apps_get vendor toolset app = Ok (scheme :: schemes) ->
    String.eqb (auth_mode scheme) "API_KEY" = true ->
    auth_status_config self = None ->
    authorization_failure toolset entity app (AttributeError "auth_status_config")
| auth_fail_key scheme schemes status e :
    apps_get vendor toolset app = Ok (scheme :: schemes) ->
    String.eqb (auth_mode scheme) "API_KEY" = true ->
    auth_status_config self = Some status ->
    not_a_key app status = false ->
    initiate_connection vendor entity (api_key_connection_args app status) = Raise e ->
    authorization_failure toolset entity app e
| auth_fail_initiate scheme schemes e :
    apps_get vendor toolset app = Ok (scheme :: schemes) ->
    String.eqb (auth_mode scheme) "API_KEY" = false ->
    initiate_connection vendor entity (default_connection_args app) = Raise e ->
    authorization_failure toolset entity app e.

End Failures.

(** ** Sample SDKs and components *)

Module Sample.

(** An SDK whose handles are the strings they were made from. *)
Definition sdk_of
    (lookup : string -> result unit)
    (schemes : string -> result (list auth_scheme))
    (initiate : initiate_args -> result connection_request)
    (connections : result (list string)) : Vendor string string string :=
  {| ComposioToolSet := fun key => Ok key;
     get_entity := fun _ id => Ok id;
     get_connection := fun _ app => lookup app;
     get_connections := fun _ => connections;
     apps_get := fun _ app => schemes app;
     initiate_connection := fun _ args => initiate args;
     get_tools := fun _ actions => Ok actions;
     App_annotations := ["GITHUB"; "GMAIL"; "SLACK"];
     Action_annotations := ["GITHUB_STAR_REPO"; "GMAIL_SEND_EMAIL"; "GITHUB_FORK";
                            "GITHUBX_LIST"] |}.

(** The dictionary the host builds from the component's inputs. *)
Definition config0 : build_config :=
  {[ "app_names" := {[ "value" := VStr ""; "options" := VList [] ]};
     "auth_link" := {[ "value" := VStr "https://old.example/link" ]};
     "auth_status" := {[ "value" := VStr "Not Connected" ]};
     "action_names" := {[ "value" := VList []; "options" := VList [] ]} ]}.

Definition component (app status : string) : ComposioAPIComponent :=
  {| entity_id := "default"; api_key := Some "secret"; app_names := app;
     auth_status_config := Some status; action_names := ["GITHUB_STAR_REPO"] |}.

Definition oauth_link : connection_request :=
  {| redirectUrl := "https://auth.example/redirect" |}.

Definition not_found : exn := NoItemsFound "no connection".

(** Every app is connected. *)
Definition connected_sdk : Vendor string string string :=
  sdk_of (fun _ => Ok tt) (fun _ => Ok []) (fun _ => Ok oauth_link)
    (Ok ["github"; "slack"; "github"]).

(** No app is connected; every app takes an API key. *)
Definition api_key_sdk : Vendor string string string :=
  sdk_of (fun _ => Raise not_found) (fun _ => Ok [{| auth_mode := "API_KEY" |}])
    (fun _ => Ok oauth_link) (Ok []).

(** No app is connected; every app is authorized through a link. *)
Definition oauth_sdk : Vendor string string string :=
  sdk_of (fun _ => Raise not_found) (fun _ => Ok [{| auth_mode := "OAUTH2" |}])
    (fun _ => Ok oauth_link) (Ok []).

(** No app is connected and the catalog of apps cannot be read. *)
Definition no_catalog_sdk : Vendor string string string :=
  sdk_of (fun _ => Raise not_found) (fun _ => Raise (VendorError "timeout"))
    (fun _ => Ok oauth_link) (Ok []).

(** The connection lookup breaks down; every app takes an API key. *)
Definition unreachable_sdk : Vendor string string string :=
  sdk_of (fun _ => Raise (VendorError "connection reset"))
    (fun _ => Ok [{| auth_mode := "API_KEY" |}])
    (fun _ => Ok oauth_link) (Ok []).

Definition github : ComposioAPIComponent := component "GITHUB_CONNECTED" "Not Connected".

Definition github_after_gmail : ComposioAPIComponent :=
  component "GITHUB" "GMAIL CONNECTED".

End Sample.

(** A computation that only ever adds calls at the end of the log, all of
    them satisfying [P]. *)
Definition logs_only {A} (P : call -> Prop) (m : M A) : Prop :=
  forall w w' r, m w = (w', r) ->
  exists l, calls w' = (calls w ++ l)%list /\ Forall P l.

(** The SDK call [c], when it names an app, names [app]. *)
Definition names_app (app : string) (c : call) : Prop :=
  match c with
  | CallGetConnection a | CallAppsGet a => a = app
  | CallInitiateConnection args => ia_app_name args = app
  | _ => True
  end.

(** The character [a] occurs in [s]. *)
Fixpoint occurs (a : ascii) (s : string) : bool :=
  match s with
  | EmptyString => false
  | String b s' => Ascii.eqb a b || occurs a s'
  end.

(** A computation that writes no item of the dictionary outside [S]. *)
Definition touches_only {A} (S : string -> string -> Prop) (m : M A) : Prop :=
  forall w w' r, m w = (w', r) ->
  forall f k, ~ S f k -> item (config w') f k = item (config w) f k.

(** The items an [app_names] update assigns. *)
Definition status_items (f k : string) : Prop :=
  (f = "auth_status" /\ k = "value") \/
  (f = "auth_link" /\ k = "value") \/
  (f = "action_names" /\ (k = "options" \/ k = "value")).

(** The items an [api_key] update assigns. *)
Definition app_names_items (f k : string) : Prop :=
  f = "app_names" /\ (k = "options" \/ k = "value").

(** The SDK calls [update_build_config] may issue for [field_name], the
    selected app being [app]. *)
Definition allowed_call (field_name : option string) (app : string) (c : call) : Prop :=
  match c with
  | CallComposioToolSet _ | CallGetEntity _ => True
  | CallGetConnections => field_name = Some "api_key"
  | CallGetConnection a | CallAppsGet a => field_name = Some "app_names" /\ a = app
  | CallInitiateConnection args =>
      field_name = Some "app_names" /\ args = default_connection_args app
  | CallGetTools _ => False
  end.

(** The component once the user has picked [option] in the app dropdown. *)
Definition select_app (self : ComposioAPIComponent) (option : string)
  : ComposioAPIComponent :=
  {| entity_id := entity_id self; api_key := api_key self; app_names := option;
     auth_status_config := auth_status_config self;
     action_names := action_names self |}.

(** An app name that holds neither spelling of the suffix. *)
Definition suffix_free (app : string) : Prop :=
  PyStr.contains "_CONNECTED" app = false /\ PyStr.contains "_connected" app = false.

(** A computation that never assigns to the dictionary. *)
Definition reads_only {A} (m : M A) : Prop :=
  forall w w' r, m w = (w', r) -> config w' = config w.

(** ** Facts about the dictionary *)

Lemma set_item_assign field key v w :
is_Some (config w !! field) ->
set_item field key v w =
  ({| config := assign field key v (config w); calls := calls w |}, Ok tt).
Proof.
intros [d Hd]. unfold set_item, assign. rewrite Hd. reflexivity.
Qed.

Lemma set_item_missing field key v w :
config w !! field = None ->
set_item field key v w = (w, Raise (KeyError field)).
Proof.
intros Hd. unfold set_item. rewrite Hd. reflexivity.
Qed.

Lemma assign_field_some field key v (bc : build_config) f :
is_Some (assign field key v bc !! f) <-> is_Some (bc !! f).
Proof.
unfold assign. destruct (bc !! field) as [d|] eqn:Hd; [|tauto].
destruct (decide (field = f)) as [->|Hne].
- rewrite lookup_insert_eq, Hd. split; eauto.
- rewrite lookup_insert_ne by assumption. tauto.
Qed.

Lemma item_assign_same field key v (bc : build_config) :
is_Some (bc !! field) ->
item (assign field key v bc) field key = Some v.
Proof.
intros [d Hd]. unfold item, assign. rewrite Hd.
rewrite lookup_insert_eq. apply lookup_insert_eq.
Qed.

Lemma item_assign_other_field field key v (bc : build_config) f k :
field <> f ->
item (assign field key v bc) f k = item bc f k.
Proof.
intros Hne. unfold item, assign.
destruct (bc !! field) as [d|]; [|reflexivity].
rewrite lookup_insert_ne by assumption. reflexivity.
Qed.

Lemma item_assign_other_key field key v (bc : build_config) k :
key <> k ->
item (assign field key v bc) field k = item bc field k.
Proof.
intros Hne. unfold item, assign.
destruct (bc !! field) as [d|] eqn:Hd; [|rewrite Hd; reflexivity].
rewrite lookup_insert_eq.
apply lookup_insert_ne. assumption.
Qed.

Lemma assign_status_fields field key v bc :
has_status_fields bc -> has_status_fields (assign field key v bc).
Proof.
unfold has_status_fields. rewrite !assign_field_some. tauto.
Qed.

(** ** Facts about the monad *)

Lemma bind_ok {A B} (m : M A) (k : A -> M B) w w' a :
m w = (w', Ok a) -> bind m k w = k a w'.
Proof. intros H. unfold bind. rewrite H. reflexivity. Qed.

Lemma bind_raise {A B} (m : M A) (k : A -> M B) w w' e :
m w = (w', Raise e) -> bind m k w = (w', Raise e).
Proof. intros H. unfold bind. rewrite H. reflexivity. Qed.

Lemma try_except_ok {A} (m : M A) h w w' a :
m w = (w', Ok a) -> try_except m h w = (w', Ok a).
Proof. intros H. unfold try_except. rewrite H. reflexivity. Qed.

Lemma try_except_raise {A} (m : M A) h w w' e :
m w = (w', Raise e) -> try_except m h w = h e w'.
Proof. intros H. unfold try_except. rewrite H. reflexivity. Qed.

Lemma sdk_run {A} (c : call) (r : result A) w : sdk c r w = (logged c w, r).
Proof. reflexivity. Qed.

(** ** The [app_names] branch of [update_build_config] *)

Section AppNamesUpdate.

Context {ToolSet Entity Tool : Type}.
Variable vendor : Vendor ToolSet Entity Tool.
Variable self : ComposioAPIComponent.

Let app_name := _get_normalized_app_name self.

Lemma update_app_names_branch fv :
  has_api_key self = true ->
  update_build_config vendor self fv (Some "app_names") =
    (let* _ :=
       try_except (check_auth_status vendor self app_name)
         (fun e =>
            let* _ := set_item "auth_link" "value" (VStr "") in
            set_item "auth_status" "value" (VStr ("Error: " ++ exn_str e))) in
     let* _ := set_item "action_names" "options" (VList (app_action_names vendor self)) in
     let* _ := set_item "action_names" "value" (VList [hd "" (app_action_names vendor self)]) in
     get_config).
Proof.
  intros Hkey. unfold update_build_config. rewrite Hkey.
  rewrite bool_decide_eq_false_2 by discriminate.
  rewrite bool_decide_eq_true_2 by reflexivity.
  reflexivity.
Qed.

Lemma refresh_actions w :
  has_status_fields (config w) ->
  (let* _ := set_item "action_names" "options" (VList (app_action_names vendor self)) in
   let* _ := set_item "action_names" "value" (VList [hd "" (app_action_names vendor self)]) in
   get_config) w
  = (set_config (with_actions vendor self (config w)) w, Ok (with_actions vendor self (config w))).
Proof.
  intros (_ & _ & Hact).
  erewrite bind_ok by (apply set_item_assign; exact Hact).
  erewrite bind_ok
    by (apply set_item_assign; simpl; apply assign_field_some; exact Hact).
  reflexivity.
Qed.

Lemma error_handler e w :
  has_status_fields (config w) ->
  (let* _ := set_item "auth_link" "value" (VStr "") in
   set_item "auth_status" "value" (VStr ("Error: " ++ exn_str e))) w
  = (set_config (with_error e (config w)) w, Ok tt).
Proof.
  intros (Hst & Hlink & _).
  erewrite bind_ok by (apply set_item_assign; exact Hlink).
  rewrite set_item_assign by (simpl; apply assign_field_some; exact Hst).
  reflexivity.
Qed.

(** The whole branch, from the outcome of the guarded block. *)
Lemma update_app_names_after fv w w1 r :
  has_api_key self = true ->
  has_status_fields (config w1) ->
  check_auth_status vendor self app_name w = (w1, r) ->
  update_build_config vendor self fv (Some "app_names") w = after_status_check vendor self w1 r.
Proof.
  intros Hkey Hwf Hcheck. rewrite update_app_names_branch by assumption.
  unfold after_status_check. destruct r as [[]|e].
  - erewrite bind_ok by (eapply try_except_ok; exact Hcheck).
    apply refresh_actions. assumption.
  - erewrite bind_ok
      by (erewrite try_except_raise by exact Hcheck; apply error_handler; assumption).
    rewrite refresh_actions
      by (simpl; unfold with_error; do 2 apply assign_status_fields; assumption).
    reflexivity.
Qed.

End AppNamesUpdate.

(** ** Methods keep the fields of the dictionary *)

Lemma keeps_ret {A} (a : A) : keeps_fields (ret a).
Proof. intros w w' r [= <- _] f. reflexivity. Qed.

Lemma keeps_raise {A} e : keeps_fields (@raise A e).
Proof. intros w w' r [= <- _] f. reflexivity. Qed.

Lemma keeps_sdk {A} c (r : result A) : keeps_fields (sdk c r).
Proof. intros w w' r' [= <- _] f. reflexivity. Qed.

Lemma keeps_set_item field key v : keeps_fields (set_item field key v).
Proof.
  intros w w' r H f. unfold set_item in H.
  destruct (config w !! field) as [d|] eqn:Hd; injection H as <- _; simpl.
  - destruct (decide (field = f)) as [->|Hne].
    + rewrite lookup_insert_eq, Hd. split; eauto.
    + rewrite lookup_insert_ne by assumption. reflexivity.
  - reflexivity.
Qed.

Lemma keeps_bind {A B} (m : M A) (k : A -> M B) :
  keeps_fields m -> (forall a, keeps_fields (k a)) -> keeps_fields (bind m k).
Proof.
  intros Hm Hk w w' r H f. unfold bind in H.
  destruct (m w) as [w1 [a|e]] eqn:Hmw.
  - rewrite (Hk a _ _ _ H f). exact (Hm _ _ _ Hmw f).
  - injection H as <- _. exact (Hm _ _ _ Hmw f).
Qed.

Lemma keeps_try_except {A} (m : M A) h :
  keeps_fields m -> (forall e, keeps_fields (h e)) -> keeps_fields (try_except m h).
Proof.
  intros Hm Hh w w' r H f. unfold try_except in H.
  destruct (m w) as [w1 [a|e]] eqn:Hmw.
  - injection H as <- _. exact (Hm _ _ _ Hmw f).
  - rewrite (Hh e _ _ _ H f). exact (Hm _ _ _ Hmw f).
Qed.

Lemma keeps_index0 {A} (l : list A) : keeps_fields (index0 l).
Proof. destruct l; [apply keeps_raise | apply keeps_ret]. Qed.

Create HintDb keeps discriminated.
#[local] Hint Resolve keeps_ret keeps_raise keeps_sdk keeps_set_item keeps_index0 : keeps.

Ltac keeps_step :=
  first
    [ apply keeps_bind; [| intros ?]
    | apply keeps_try_except; [| intros ?]
    | solve [auto with keeps]
    | match goal with
      | |- keeps_fields (if ?b then _ else _) => destruct b
      | |- keeps_fields (match ?x with _ => _ end) => destruct x
      end ].

Section Keeps.

Context {ToolSet Entity Tool : Type}.
Variable vendor : Vendor ToolSet Entity Tool.
Variable self : ComposioAPIComponent.

Lemma keeps_build_wrapper : keeps_fields (_build_wrapper vendor self).
Proof. unfold _build_wrapper. repeat keeps_step. Qed.

Lemma keeps_check_auth_status app : keeps_fields (check_auth_status vendor self app).
Proof.
  unfold check_auth_status, resolve_status, try_except_NoItemsFound, client_get_entity,
    entity_get_connection, client_apps_get, _initiate_default_connection,
    entity_initiate_connection.
  apply keeps_bind; [apply keeps_build_wrapper | intros toolset].
  repeat keeps_step.
Qed.

Lemma check_auth_status_fields app w w1 r :
  check_auth_status vendor self app w = (w1, r) ->
  has_status_fields (config w) -> has_status_fields (config w1).
Proof.
  intros H. unfold has_status_fields.
  rewrite !(keeps_check_auth_status app _ _ _ H). tauto.
Qed.

End Keeps.

(** ** Methods only extend the log *)

Section Logs.

Variable P : call -> Prop.

Lemma logs_ret {A} (a : A) : logs_only P (ret a).
Proof.
  intros w w' r [= <- _]. exists []. split; [| constructor].
  symmetry. apply app_nil_r.
Qed.

Lemma logs_raise {A} e : logs_only P (@raise A e).
Proof.
  intros w w' r [= <- _]. exists []. split; [| constructor].
  symmetry. apply app_nil_r.
Qed.

Lemma logs_get_config : logs_only P get_config.
Proof.
  intros w w' r [= <- _]. exists []. split; [| constructor].
  symmetry. apply app_nil_r.
Qed.

Lemma logs_sdk {A} c (r : result A) : P c -> logs_only P (sdk c r).
Proof.
  intros Hc w w' r' [= <- _]. exists [c]. split; [reflexivity|].
  constructor; [exact Hc | constructor].
Qed.

Lemma logs_set_item field key v : logs_only P (set_item field key v).
Proof.
  intros w w' r H. unfold set_item in H. exists []. split; [| constructor].
  destruct (config w !! field); injection H as <- _; symmetry; apply app_nil_r.
Qed.

Lemma logs_bind {A B} (m : M A) (k : A -> M B) :
  logs_only P m -> (forall a, logs_only P (k a)) -> logs_only P (bind m k).
Proof.
  intros Hm Hk w w' r H. unfold bind in H.
  destruct (m w) as [w1 [a|e]] eqn:Hmw.
  - destruct (Hm _ _ _ Hmw) as (l1 & H1 & HP1).
    destruct (Hk a _ _ _ H) as (l2 & H2 & HP2).
    exists (l1 ++ l2)%list. split.
    + rewrite H2, H1. symmetry. apply app_assoc.
    + apply Forall_app. split; assumption.
  - injection H as <- _. exact (Hm _ _ _ Hmw).
Qed.

Lemma logs_try_except {A} (m : M A) h :
  logs_only P m -> (forall e, logs_only P (h e)) -> logs_only P (try_except m h).
Proof.
  intros Hm Hh w w' r H. unfold try_except in H.
  destruct (m w) as [w1 [a|e]] eqn:Hmw.
  - injection H as <- _. exact (Hm _ _ _ Hmw).
  - destruct (Hm _ _ _ Hmw) as (l1 & H1 & HP1).
    destruct (Hh e _ _ _ H) as (l2 & H2 & HP2).
    exists (l1 ++ l2)%list. split.
    + rewrite H2, H1. symmetry. apply app_assoc.
    + apply Forall_app. split; assumption.
Qed.

Lemma logs_index0 {A} (l : list A) : logs_only P (index0 l).
Proof. destruct l; [apply logs_raise | apply logs_ret]. Qed.

(** The first call of a block is in the log when the block is over. *)
Lemma first_call_logged {A B} c (r : result A) (k : A -> M B) w w' r' :
  (forall a, logs_only P (k a)) ->
  bind (sdk c r) k w = (w', r') ->
  In c (calls w').
Proof.
  intros Hk H. unfold bind in H. rewrite sdk_run in H.
  destruct r as [a|e].
  - destruct (Hk a _ _ _ H) as (l & -> & _). simpl.
    apply in_or_app. left. apply in_or_app. right. left. reflexivity.
  - injection H as <- _. simpl. apply in_or_app. right. left. reflexivity.
Qed.

End Logs.

Create HintDb logs discriminated.
#[local] Hint Resolve logs_ret logs_raise logs_get_config logs_set_item logs_index0 : logs.

Ltac logs_step :=
  first
    [ apply logs_bind; [| intros ?]
    | apply logs_try_except; [| intros ?]
    | apply logs_sdk; solve [exact I | reflexivity]
    | solve [auto with logs]
    | match goal with
      | |- logs_only _ (if ?b then _ else _) => destruct b
      | |- logs_only _ (match ?x with _ => _ end) => destruct x
      end ].

(** ** The outcomes of the status check *)

Section StatusCheck.

Context {ToolSet Entity Tool : Type}.
Variable vendor : Vendor ToolSet Entity Tool.
Variable self : ComposioAPIComponent.
Variables (k : string) (toolset : ToolSet) (entity : Entity).
Hypothesis Hsession : session vendor self k toolset entity.

Lemma build_wrapper_session w :
  _build_wrapper vendor self w = (logged (CallComposioToolSet k) w, Ok toolset).
Proof.
  destruct Hsession as (Hk & Hts & _). unfold _build_wrapper.
  rewrite Hk, sdk_run, Hts. reflexivity.
Qed.

Lemma get_entity_session w :
  client_get_entity vendor self toolset w
  = (logged (CallGetEntity (entity_id self)) w, Ok entity).
Proof.
  destruct Hsession as (_ & _ & Hen). unfold client_get_entity.
  rewrite sdk_run, Hen. reflexivity.
Qed.

Lemma check_auth_status_session app w :
  check_auth_status vendor self app w
  = resolve_status vendor toolset entity app (in_session self k w).
Proof.
  unfold check_auth_status.
  erewrite bind_ok by apply build_wrapper_session.
  erewrite bind_ok by apply get_entity_session.
  reflexivity.
Qed.

(** A connection exists. *)
Lemma resolve_connected app w :
  get_connection vendor entity app = Ok tt ->
  has_status_fields (config w) ->
  resolve_status vendor toolset entity app w
  = (set_config
       (assign "auth_link" "value" (VStr "")
          (assign "auth_status" "value" (VStr (app ++ " CONNECTED")) (config w)))
       (logged (CallGetConnection app) w),
     Ok tt).
Proof.
  intros Hconn (Hst & Hlink & _).
  unfold resolve_status, try_except_NoItemsFound.
  apply try_except_ok.
  erewrite bind_ok by (unfold entity_get_connection; rewrite sdk_run, Hconn; reflexivity).
  erewrite bind_ok by (apply set_item_assign; exact Hst).
  rewrite set_item_assign by (simpl; apply assign_field_some; exact Hlink).
  reflexivity.
Qed.

(** The lookup raises something else than [NoItemsFound]. *)
Lemma resolve_lookup_failure app e w :
  get_connection vendor entity app = Raise e ->
  is_NoItemsFound e = false ->
  resolve_status vendor toolset entity app w
  = (logged (CallGetConnection app) w, Raise e).
Proof.
  intros Hconn Hne.
  unfold resolve_status, try_except_NoItemsFound.
  erewrite try_except_raise
    by (apply bind_raise; unfold entity_get_connection; rewrite sdk_run, Hconn;
        reflexivity).
  rewrite Hne. reflexivity.
Qed.

(** No connection: what follows is the inspection of the auth schemes. *)
Lemma resolve_not_found app e w :
  get_connection vendor entity app = Raise e ->
  is_NoItemsFound e = true ->
  resolve_status vendor toolset entity app w
  = (let* auth_schemes := client_apps_get vendor toolset app in
     let* first := index0 auth_schemes in
     if String.eqb (auth_mode first) "API_KEY"
     then
       let* _ := set_item "auth_status" "value" (VStr "Enter API Key") in
       set_item "auth_link" "value" (VStr "")
     else
       let* auth_url := _initiate_default_connection vendor entity app in
       let* _ := set_item "auth_link" "value" (VStr auth_url) in
       set_item "auth_status" "value" (VStr "Click link to authenticate"))
      (logged (CallGetConnection app) w).
Proof.
  intros Hconn Hnf.
  unfold resolve_status, try_except_NoItemsFound.
  erewrite try_except_raise
    by (apply bind_raise; unfold entity_get_connection; rewrite sdk_run, Hconn;
        reflexivity).
  rewrite Hnf. reflexivity.
Qed.

Lemma apps_get_run app r w :
  apps_get vendor toolset app = r ->
  client_apps_get vendor toolset app w = (logged (CallAppsGet app) w, r).
Proof. intros <-. reflexivity. Qed.

Lemma initiate_run args r w :
  initiate_connection vendor entity args = r ->
  entity_initiate_connection vendor entity args w
  = (logged (CallInitiateConnection args) w, r).
Proof. intros <-. reflexivity. Qed.

(** No connection, and the catalog of apps cannot be read. *)
Lemma resolve_schemes_failure app e0 e w :
  get_connection vendor entity app = Raise e0 ->
  is_NoItemsFound e0 = true ->
  apps_get vendor toolset app = Raise e ->
  resolve_status vendor toolset entity app w
  = (logged (CallAppsGet app) (logged (CallGetConnection app) w), Raise e).
Proof.
  intros Hconn Hnf Happ. rewrite (resolve_not_found app e0) by assumption.
  apply bind_raise, apps_get_run, Happ.
Qed.

(** No connection, and an app that declares no auth scheme. *)
Lemma resolve_no_scheme app e0 w :
  get_connection vendor entity app = Raise e0 ->
  is_NoItemsFound e0 = true ->
  apps_get vendor toolset app = Ok [] ->
  resolve_status vendor toolset entity app w
  = (logged (CallAppsGet app) (logged (CallGetConnection app) w),
     Raise (IndexError "list index out of range")).
Proof.
  intros Hconn Hnf Happ. rewrite (resolve_not_found app e0) by assumption.
  erewrite bind_ok by (apply apps_get_run, Happ).
  reflexivity.
Qed.

(** No connection, key-based auth. *)
Lemma resolve_api_key app e0 scheme schemes w :
  get_connection vendor entity app = Raise e0 ->
  is_NoItemsFound e0 = true ->
  apps_get vendor toolset app = Ok (scheme :: schemes) ->
  String.eqb (auth_mode scheme) "API_KEY" = true ->
  has_status_fields (config w) ->
  resolve_status vendor toolset entity app w
  = (set_config
       (assign "auth_link" "value" (VStr "")
          (assign "auth_status" "value" (VStr "Enter API Key") (config w)))
       (logged (CallAppsGet app) (logged (CallGetConnection app) w)),
     Ok tt).
Proof.
  intros Hconn Hnf Happ Hmode (Hst & Hlink & _).
  rewrite (resolve_not_found app e0) by assumption.
  erewrite bind_ok by (apply apps_get_run, Happ).
  erewrite bind_ok by reflexivity. rewrite Hmode.
  erewrite bind_ok by (apply set_item_assign; exact Hst).
  rewrite set_item_assign by (simpl; apply assign_field_some; exact Hlink).
  reflexivity.
Qed.

(** No connection, link-based auth, and the SDK refuses to open one. *)
Lemma resolve_initiate_failure app e0 scheme schemes e w :
  get_connection vendor entity app = Raise e0 ->
  is_NoItemsFound e0 = true ->
  apps_get vendor toolset app = Ok (scheme :: schemes) ->
  String.eqb (auth_mode scheme) "API_KEY" = false ->
  initiate_connection vendor entity (default_connection_args app) = Raise e ->
  resolve_status vendor toolset entity app w
  = (logged (CallInitiateConnection (default_connection_args app))
       (logged (CallAppsGet app) (logged (CallGetConnection app) w)),
     Raise e).
Proof.
  intros Hconn Hnf Happ Hmode Hinit.
  rewrite (resolve_not_found app e0) by assumption.
  erewrite bind_ok by (apply apps_get_run, Happ).
  erewrite bind_ok by reflexivity. rewrite Hmode.
  apply bind_raise. unfold _initiate_default_connection.
  apply bind_raise, initiate_run, Hinit.
Qed.

(** No connection, link-based auth. *)
Lemma resolve_link app e0 scheme schemes connection w :
  get_connection vendor entity app = Raise e0 ->
  is_NoItemsFound e0 = true ->
  apps_get vendor toolset app = Ok (scheme :: schemes) ->
  String.eqb (auth_mode scheme) "API_KEY" = false ->
  initiate_connection vendor entity (default_connection_args app) = Ok connection ->
  has_status_fields (config w) ->
  resolve_status vendor toolset entity app w
  = (set_config
       (assign "auth_status" "value" (VStr "Click link to authenticate")
          (assign "auth_link" "value" (VStr (redirectUrl connection)) (config w)))
       (logged (CallInitiateConnection (default_connection_args app))
          (logged (CallAppsGet app) (logged (CallGetConnection app) w))),
     Ok tt).
Proof.
  intros Hconn Hnf Happ Hmode Hinit (Hst & Hlink & _).
  rewrite (resolve_not_found app e0) by assumption.
  erewrite bind_ok by (apply apps_get_run, Happ).
  erewrite bind_ok by reflexivity. rewrite Hmode.
  erewrite bind_ok
    by (unfold _initiate_default_connection;
        erewrite bind_ok by (apply initiate_run, Hinit); reflexivity).
  erewrite bind_ok by (apply set_item_assign; exact Hlink).
  rewrite set_item_assign by (simpl; apply assign_field_some; exact Hst).
  reflexivity.
Qed.

End StatusCheck.

(** ** Reading the dictionary the caller gets back *)

Section Readback.

Context {ToolSet Entity Tool : Type}.
Variable vendor : Vendor ToolSet Entity Tool.
Variable self : ComposioAPIComponent.

Lemma with_actions_other (bc : build_config) f k :
  f <> "action_names" ->
  item (with_actions vendor self bc) f k = item bc f k.
Proof.
  intros Hne. unfold with_actions.
  rewrite !item_assign_other_field by congruence. reflexivity.
Qed.

Lemma with_actions_options (bc : build_config) :
  is_Some (bc !! "action_names") ->
  item (with_actions vendor self bc) "action_names" "options"
  = Some (VList (app_action_names vendor self)).
Proof.
  intros Hact. unfold with_actions.
  rewrite item_assign_other_key by discriminate.
  apply item_assign_same, Hact.
Qed.

Lemma with_actions_value (bc : build_config) :
  is_Some (bc !! "action_names") ->
  item (with_actions vendor self bc) "action_names" "value"
  = Some (VList [hd "" (app_action_names vendor self)]).
Proof.
  intros Hact. unfold with_actions.
  apply item_assign_same, assign_field_some, Hact.
Qed.

Lemma with_error_status e (bc : build_config) :
  has_status_fields bc ->
  item (with_error e bc) "auth_status" "value" = Some (VStr ("Error: " ++ exn_str e)).
Proof.
  intros (Hst & _). unfold with_error.
  apply item_assign_same, assign_field_some, Hst.
Qed.

Lemma with_error_link e (bc : build_config) :
  has_status_fields bc ->
  item (with_error e bc) "auth_link" "value" = Some (VStr "").
Proof.
  intros (_ & Hlink & _). unfold with_error.
  rewrite item_assign_other_field by discriminate.
  apply item_assign_same, Hlink.
Qed.

Lemma with_error_fields e bc : has_status_fields bc -> has_status_fields (with_error e bc).
Proof. intros H. unfold with_error. do 2 apply assign_status_fields. exact H. Qed.

Lemma status_check_failure_raises app e w :
  status_check_failure vendor self app e ->
  exists w1, check_auth_status vendor self app w = (w1, Raise e) /\ config w1 = config w.
Proof.
  intros Hfail. destruct Hfail.
  - eexists. split; [|shelve]. unfold check_auth_status.
    apply bind_raise. unfold _build_wrapper.
    rewrite H, sdk_run, H0. reflexivity.
    Unshelve. reflexivity.
  - eexists. split; [|shelve]. unfold check_auth_status.
    erewrite bind_ok by (unfold _build_wrapper; rewrite H, sdk_run, H0; reflexivity).
    apply bind_raise. unfold client_get_entity. rewrite sdk_run, H1. reflexivity.
    Unshelve. reflexivity.
  - eexists. split.
    + rewrite (check_auth_status_session vendor self k toolset entity) by assumption.
      apply (resolve_lookup_failure vendor toolset entity); assumption.
    + reflexivity.
  - eexists. split.
    + rewrite (check_auth_status_session vendor self k toolset entity) by assumption.
      apply (resolve_schemes_failure vendor toolset entity app e0); assumption.
    + reflexivity.
  - eexists. split.
    + rewrite (check_auth_status_session vendor self k toolset entity) by assumption.
      apply (resolve_no_scheme vendor toolset entity app e0); assumption.
    + reflexivity.
  - eexists. split.
    + rewrite (check_auth_status_session vendor self k toolset entity) by assumption.
      apply (resolve_initiate_failure vendor toolset entity app e0 scheme schemes);
        assumption.
    + reflexivity.
Qed.

End Readback.

(** ** [_check_for_authorization] *)

Section CheckForAuthorization.

Context {ToolSet Entity Tool : Type}.
Variable vendor : Vendor ToolSet Entity Tool.
Variable self : ComposioAPIComponent.
Variables (k : string) (toolset : ToolSet) (entity : Entity).
Hypothesis Hsession : session vendor self k toolset entity.

Lemma check_for_authorization_session app w :
  _check_for_authorization vendor self app w
  = try_except
      (let* _ := entity_get_connection vendor entity app in
       ret (app ++ " CONNECTED"))
      (fun _ => _handle_authorization_failure vendor self toolset entity app)
      (in_session self k w).
Proof.
  unfold _check_for_authorization.
  erewrite bind_ok by (apply (build_wrapper_session vendor self k toolset entity Hsession)).
  erewrite bind_ok by (apply (get_entity_session vendor self k toolset entity Hsession)).
  reflexivity.
Qed.

Lemma check_for_authorization_connected app w :
  get_connection vendor entity app = Ok tt ->
  _check_for_authorization vendor self app w
  = (logged (CallGetConnection app) (in_session self k w), Ok (app ++ " CONNECTED")).
Proof.
  intros Hconn. rewrite check_for_authorization_session.
  apply try_except_ok.
  erewrite bind_ok by (unfold entity_get_connection; rewrite sdk_run, Hconn; reflexivity).
  reflexivity.
Qed.

(** Whatever the lookup raises, the auth schemes are inspected next. *)
Lemma check_for_authorization_lookup_raises app e w :
  get_connection vendor entity app = Raise e ->
  _check_for_authorization vendor self app w
  = _handle_authorization_failure vendor self toolset entity app
      (logged (CallGetConnection app) (in_session self k w)).
Proof.
  intros Hconn. rewrite check_for_authorization_session.
  erewrite try_except_raise
    by (apply bind_raise; unfold entity_get_connection; rewrite sdk_run, Hconn;
        reflexivity).
  reflexivity.
Qed.

Lemma process_api_key_auth_not_a_key app status w :
  auth_status_config self = Some status ->
  not_a_key app status = true ->
  _process_api_key_auth vendor self entity app w = (w, Ok "Enter API Key").
Proof.
  intros Hst Hnk. unfold _process_api_key_auth. rewrite Hst.
  unfold not_a_key in Hnk. cbv zeta. rewrite Hnk. reflexivity.
Qed.

Lemma process_api_key_auth_key app status w :
  auth_status_config self = Some status ->
  not_a_key app status = false ->
  _process_api_key_auth vendor self entity app w
  = (let* _ :=
       entity_initiate_connection vendor entity (api_key_connection_args app status) in
     ret (app ++ " CONNECTED")) w.
Proof.
  intros Hst Hnk. unfold _process_api_key_auth. rewrite Hst.
  unfold not_a_key in Hnk. cbv zeta. rewrite Hnk.
  apply orb_false_elim in Hnk as [_ ->]. reflexivity.
Qed.

Lemma handle_authorization_failure_error app e w :
  authorization_failure vendor self toolset entity app e ->
  exists w1,
    _handle_authorization_failure vendor self toolset entity app w = (w1, Ok "Error")
    /\ config w1 = config w.
Proof.
  intros Hfail. unfold _handle_authorization_failure. destruct Hfail.
  - eexists; split; [|shelve].
    erewrite try_except_raise by (apply bind_raise, apps_get_run; eassumption).
    reflexivity. Unshelve. reflexivity.
  - eexists; split; [|shelve].
    erewrite try_except_raise
      by (erewrite bind_ok by (apply apps_get_run; eassumption); reflexivity).
    reflexivity. Unshelve. reflexivity.
  - eexists; split; [|shelve].
    erewrite try_except_raise
      by (erewrite bind_ok by (apply apps_get_run; eassumption);
          erewrite bind_ok by reflexivity;
          rewrite H0; unfold _process_api_key_auth; rewrite H1; reflexivity).
    reflexivity. Unshelve. reflexivity.
  - eexists; split; [|shelve].
    erewrite try_except_raise
      by (erewrite bind_ok by (apply apps_get_run; eassumption);
          erewrite bind_ok by reflexivity;
          rewrite H0, (process_api_key_auth_key app status) by assumption;
          apply bind_raise, initiate_run; eassumption).
    reflexivity. Unshelve. reflexivity.
  - eexists; split; [|shelve].
    erewrite try_except_raise
      by (erewrite bind_ok by (apply apps_get_run; eassumption);
          erewrite bind_ok by reflexivity;
          rewrite H0; unfold _initiate_default_connection;
          apply bind_raise, initiate_run; eassumption).
    reflexivity. Unshelve. reflexivity.
Qed.

Lemma handle_authorization_failure_api_key app scheme schemes status w :
  apps_get vendor toolset app = Ok (scheme :: schemes) ->
  String.eqb (auth_mode scheme) "API_KEY" = true ->
  auth_status_config self = Some status ->
  not_a_key app status = true ->
  _handle_authorization_failure vendor self toolset entity app w
  = (logged (CallAppsGet app) w, Ok "Enter API Key").
Proof.
  intros Happ Hmode Hst Hnk. unfold _handle_authorization_failure.
  apply try_except_ok.
  erewrite bind_ok by (apply apps_get_run; eassumption).
  erewrite bind_ok by reflexivity. rewrite Hmode.
  apply (process_api_key_auth_not_a_key app status); assumption.
Qed.

End CheckForAuthorization.

(** ** Status resolution on an [app_names] update *)

Lemma has_api_key_some self k :
  api_key self = Some k -> k <> "" -> has_api_key self = true.
Proof.
  intros Hk Hne. unfold has_api_key. rewrite Hk.
  apply negb_true_iff, String.eqb_neq, Hne.
Qed.

Lemma filter_sublist {A} (f : A -> bool) (l : list A) : sublist (List.filter f l) l.
Proof.
  induction l as [|a l IH]; simpl.
  - constructor.
  - destruct (f a); [apply sublist_skip | apply sublist_cons]; exact IH.
Qed.

Section UpdateOutcome.

Context {ToolSet Entity Tool : Type}.
Variable vendor : Vendor ToolSet Entity Tool.
Variable self : ComposioAPIComponent.

(** The status check went through: the caller gets its dictionary with the
    action list refreshed. *)
Lemma update_app_names_ok fv bc w1 :
  has_api_key self = true ->
  has_status_fields bc ->
  check_auth_status vendor self (_get_normalized_app_name self) (enter bc) = (w1, Ok tt) ->
  exists w',
    update_build_config vendor self fv (Some "app_names") (enter bc)
      = (w', Ok (config w')) /\
    calls w' = calls w1 /\
    forall f k, f <> "action_names" -> item (config w') f k = item (config w1) f k.
Proof.
  intros Hkey Hwf Hcheck.
  pose proof (check_auth_status_fields vendor self _ _ _ _ Hcheck Hwf) as Hwf1.
  rewrite (update_app_names_after vendor self fv _ _ _ Hkey Hwf1 Hcheck).
  unfold after_status_check.
  exists (set_config (with_actions vendor self (config w1)) w1).
  split; [reflexivity | split; [reflexivity |]].
  intros f k Hne. apply with_actions_other, Hne.
Qed.

(** The status check raised [e]: the handler has run, nothing is raised. *)
Lemma update_app_names_raise fv bc w1 e :
  has_api_key self = true ->
  has_status_fields bc ->
  check_auth_status vendor self (_get_normalized_app_name self) (enter bc)
    = (w1, Raise e) ->
  exists w',
    update_build_config vendor self fv (Some "app_names") (enter bc)
      = (w', Ok (config w')) /\
    calls w' = calls w1 /\
    item (config w') "auth_status" "value" = Some (VStr ("Error: " ++ exn_str e)) /\
    item (config w') "auth_link" "value" = Some (VStr "").
Proof.
  intros Hkey Hwf Hcheck.
  pose proof (check_auth_status_fields vendor self _ _ _ _ Hcheck Hwf) as Hwf1.
  rewrite (update_app_names_after vendor self fv _ _ _ Hkey Hwf1 Hcheck).
  unfold after_status_check.
  exists (set_config (with_actions vendor self (with_error e (config w1))) w1).
  split; [reflexivity | split; [reflexivity |]].
  cbn [config set_config]. rewrite !with_actions_other by discriminate.
  split; [apply with_error_status | apply with_error_link]; exact Hwf1.
Qed.

End UpdateOutcome.

(** C2: whenever the connection lookup for the selected app succeeds, an
    [app_names] update leaves [auth_status] equal to the normalized app name
    followed by " CONNECTED" and [auth_link] equal to the empty string; the
    status string of [_check_for_authorization] is the same. *)
Theorem connected_app_is_reported
    {ToolSet Entity Tool : Type} (vendor : Vendor ToolSet Entity Tool)
    (self : ComposioAPIComponent) (fv : pyval) (bc : build_config)
    (k : string) (toolset : ToolSet) (entity : Entity) :
  session vendor self k toolset entity ->
  k <> "" ->
  get_connection vendor entity (_get_normalized_app_name self) = Ok tt ->
  has_status_fields bc ->
  (exists w',
     update_build_config vendor self fv (Some "app_names") (enter bc)
       = (w', Ok (config w')) /\
     item (config w') "auth_status" "value"
       = Some (VStr (_get_normalized_app_name self ++ " CONNECTED")) /\
     item (config w') "auth_link" "value" = Some (VStr "")) /\
  snd (_check_for_authorization vendor self (_get_normalized_app_name self) (enter bc))
    = Ok (_get_normalized_app_name self ++ " CONNECTED").
Proof.
  intros Hsession Hk Hconn Hwf. split.
  - pose proof (resolve_connected vendor toolset entity _ (in_session self k (enter bc))
                  Hconn Hwf) as Hres.
    rewrite <- (check_auth_status_session vendor self k toolset entity Hsession) in Hres.
    assert (Hkey : has_api_key self = true)
      by (destruct Hsession as (Hkey & _); eapply has_api_key_some; eassumption).
    destruct (update_app_names_ok vendor self fv bc _ Hkey Hwf Hres)
      as (w' & Hrun & _ & Hsame).
    exists w'. split; [exact Hrun|].
    rewrite !Hsame by discriminate. cbn [config set_config].
    destruct Hwf as (Hst & Hlink & _). split.
    + rewrite item_assign_other_field by discriminate.
      apply item_assign_same, Hst.
    + apply item_assign_same, assign_field_some, Hlink.
  - rewrite (check_for_authorization_connected vendor self k toolset entity Hsession)
      by exact Hconn.
    reflexivity.
Qed.

Lemma connected_app_is_reported_witness :
  session Sample.connected_sdk Sample.github "secret" "secret" "default" /\
  "secret" <> "" /\
  get_connection Sample.connected_sdk "default" (_get_normalized_app_name Sample.github)
    = Ok tt /\
  has_status_fields Sample.config0 /\
  (exists w',
     update_build_config Sample.connected_sdk Sample.github VNone (Some "app_names")
       (enter Sample.config0) = (w', Ok (config w')) /\
     item (config w') "auth_status" "value" = Some (VStr "GITHUB CONNECTED") /\
     item (config w') "auth_link" "value" = Some (VStr "")).
Proof.
  assert (Hs : session Sample.connected_sdk Sample.github "secret" "secret" "default")
    by (repeat split; reflexivity).
  assert (Hk : "secret" <> "") by discriminate.
  assert (Hc : get_connection Sample.connected_sdk "default"
                 (_get_normalized_app_name Sample.github) = Ok tt)
    by reflexivity.
  assert (Hf : has_status_fields Sample.config0)
    by (repeat split; eexists; vm_compute; reflexivity).
  repeat (split; [assumption|]).
  exact (proj1 (connected_app_is_reported Sample.connected_sdk Sample.github VNone
                  Sample.config0 "secret" "secret" "default" Hs Hk Hc Hf)).
Defined.

(** C3: after an [app_names] update the [action_names] options are exactly
    the known action identifiers, in catalog order, whose lowercase form starts
    with the lowercase normalized app name followed by "_". *)
Theorem action_options_are_the_app_actions
    {ToolSet Entity Tool : Type} (vendor : Vendor ToolSet Entity Tool)
    (self : ComposioAPIComponent) (fv : pyval) (bc : build_config) :
  has_api_key self = true ->
  has_status_fields bc ->
  exists w' options,
    update_build_config vendor self fv (Some "app_names") (enter bc)
      = (w', Ok (config w')) /\
    item (config w') "action_names" "options" = Some (VList options) /\
    sublist options (Action_annotations vendor) /\
    forall action : string,
      In action options <->
      In action (Action_annotations vendor) /\
      PyStr.startswith (PyStr.lower action)
        (PyStr.lower (_get_normalized_app_name self) ++ "_") = true.
Proof.
  intros Hkey Hwf.
  destruct (check_auth_status vendor self (_get_normalized_app_name self) (enter bc))
    as [w1 r] eqn:Hcheck.
  pose proof (check_auth_status_fields vendor self _ _ _ _ Hcheck Hwf) as Hwf1.
  exists (set_config
            (with_actions vendor self
               match r with Ok _ => config w1 | Raise e => with_error e (config w1) end)
            w1),
         (app_action_names vendor self).
  split; [| split; [| split]].
  - erewrite update_app_names_after by eassumption. reflexivity.
  - cbn [config set_config]. apply with_actions_options.
    destruct r as [[]|e]; [apply Hwf1 | apply with_error_fields, Hwf1].
  - apply filter_sublist.
  - intros action. unfold app_action_names. rewrite filter_In. reflexivity.
Qed.

Lemma action_options_are_the_app_actions_witness :
  has_api_key Sample.github = true /\
  has_status_fields Sample.config0 /\
  exists w',
    update_build_config Sample.connected_sdk Sample.github VNone (Some "app_names")
      (enter Sample.config0) = (w', Ok (config w')) /\
    item (config w') "action_names" "options"
      = Some (VList ["GITHUB_STAR_REPO"; "GITHUB_FORK"]).
Proof.
  assert (Hk : has_api_key Sample.github = true) by reflexivity.
  assert (Hf : has_status_fields Sample.config0)
    by (repeat split; eexists; vm_compute; reflexivity).
  repeat (split; [assumption|]).
  destruct (action_options_are_the_app_actions Sample.connected_sdk Sample.github VNone
              Sample.config0 Hk Hf)
    as (w' & options & Hrun & Hitem & _).
  exists w'. split; [exact Hrun|].
  assert (Heq : fst (update_build_config Sample.connected_sdk Sample.github VNone
                       (Some "app_names") (enter Sample.config0)) = w')
    by (rewrite Hrun; reflexivity).
  rewrite <- Heq. vm_compute. reflexivity.
Defined.

Lemma not_a_key_cases app status :
  PyStr.contains "http" status = true \/
  (PyStr.contains "CONNECTED" status = true /\ PyStr.contains app status = false) \/
  PyStr.contains "API Key" status = true ->
  not_a_key app status = true.
Proof.
  unfold not_a_key. intros [H | [[H1 H2] | H]].
  - rewrite H. rewrite orb_true_l, orb_true_r. reflexivity.
  - rewrite H1, H2. reflexivity.
  - rewrite H. apply orb_true_r.
Qed.

(** C5: for an app without connection whose first auth scheme is "API_KEY"
    and a prior status text that is a URL, another app's "CONNECTED" message
    or the "API Key" prompt, status resolution gives "Enter API Key", in
    [update_build_config] and in [_check_for_authorization]. *)
Theorem api_key_app_asks_for_the_key
    {ToolSet Entity Tool : Type} (vendor : Vendor ToolSet Entity Tool)
    (self : ComposioAPIComponent) (fv : pyval) (bc : build_config)
    (k : string) (toolset : ToolSet) (entity : Entity)
    (e0 : exn) (scheme : auth_scheme) (schemes : list auth_scheme) (status : string) :
  session vendor self k toolset entity ->
  k <> "" ->
  get_connection vendor entity (_get_normalized_app_name self) = Raise e0 ->
  is_NoItemsFound e0 = true ->
  apps_get vendor toolset (_get_normalized_app_name self) = Ok (scheme :: schemes) ->
  auth_mode scheme = "API_KEY" ->
  auth_status_config self = Some status ->
  PyStr.contains "http" status = true \/
  (PyStr.contains "CONNECTED" status = true /\
   PyStr.contains (_get_normalized_app_name self) status = false) \/
  PyStr.contains "API Key" status = true ->
  has_status_fields bc ->
  (exists w',
     update_build_config vendor self fv (Some "app_names") (enter bc)
       = (w', Ok (config w')) /\
     item (config w') "auth_status" "value" = Some (VStr "Enter API Key")) /\
  snd (_check_for_authorization vendor self (_get_normalized_app_name self) (enter bc))
    = Ok "Enter API Key".
Proof.
  intros Hsession Hk Hconn Hnf Happ Hmode Hst Htext Hwf.
  set (app := _get_normalized_app_name self) in *.
  assert (Hmodeb : String.eqb (auth_mode scheme) "API_KEY" = true)
    by (apply String.eqb_eq, Hmode).
  split.
  - pose proof (resolve_api_key vendor toolset entity app e0 scheme schemes
                  (in_session self k (enter bc)) Hconn Hnf Happ Hmodeb Hwf) as Hres.
    rewrite <- (check_auth_status_session vendor self k toolset entity Hsession) in Hres.
    assert (Hkey : has_api_key self = true)
      by (destruct Hsession as (Hkey & _); eapply has_api_key_some; eassumption).
    destruct (update_app_names_ok vendor self fv bc _ Hkey Hwf Hres)
      as (w' & Hrun & _ & Hsame).
    exists w'. split; [exact Hrun|].
    rewrite Hsame by discriminate. cbn [config set_config].
    destruct Hwf as (Hs & _).
    rewrite item_assign_other_field by discriminate.
    apply item_assign_same, Hs.
  - rewrite (check_for_authorization_lookup_raises vendor self k toolset entity Hsession
               app e0) by exact Hconn.
    rewrite (handle_authorization_failure_api_key vendor self toolset entity app
               scheme schemes status)
      by (try assumption; apply not_a_key_cases, Htext).
    reflexivity.
Qed.

Lemma api_key_app_asks_for_the_key_witness :
  (PyStr.contains "CONNECTED" "GMAIL CONNECTED" = true /\
   PyStr.contains "GITHUB" "GMAIL CONNECTED" = false) /\
  (exists w',
     update_build_config Sample.api_key_sdk Sample.github_after_gmail VNone
       (Some "app_names") (enter Sample.config0) = (w', Ok (config w')) /\
     item (config w') "auth_status" "value" = Some (VStr "Enter API Key")) /\
  snd (_check_for_authorization Sample.api_key_sdk Sample.github_after_gmail "GITHUB"
         (enter Sample.config0))
    = Ok "Enter API Key".
Proof.
  assert (Htext : PyStr.contains "CONNECTED" "GMAIL CONNECTED" = true /\
                  PyStr.contains "GITHUB" "GMAIL CONNECTED" = false)
    by (split; reflexivity).
  split; [exact Htext|].
  apply (api_key_app_asks_for_the_key Sample.api_key_sdk Sample.github_after_gmail VNone
           Sample.config0 "secret" "secret" "default" Sample.not_found
           {| auth_mode := "API_KEY" |} [] "GMAIL CONNECTED").
  - repeat split; reflexivity.
  - discriminate.
  - reflexivity.
  - reflexivity.
  - reflexivity.
  - reflexivity.
  - reflexivity.
  - right. left. exact Htext.
  - repeat split; eexists; vm_compute; reflexivity.
Defined.



(** ** Which exceptions of the lookup lead to the auth schemes *)

Section Taxonomy.

Context {ToolSet Entity Tool : Type}.
Variable vendor : Vendor ToolSet Entity Tool.
Variable self : ComposioAPIComponent.
Variables (toolset : ToolSet) (entity : Entity).

Lemma resolve_not_found_inspects app e w w1 r :
  get_connection vendor entity app = Raise e ->
  is_NoItemsFound e = true ->
  resolve_status vendor toolset entity app w = (w1, r) ->
  In (CallAppsGet app) (calls w1).
Proof.
  intros Hconn Hnf Hres.
  rewrite (resolve_not_found vendor toolset entity app e) in Hres by assumption.
  unfold client_apps_get in Hres.
  eapply (first_call_logged (fun _ => True)); [| exact Hres].
  intros auth_schemes.
  unfold _initiate_default_connection, entity_initiate_connection.
  repeat logs_step.
Qed.

Lemma handle_authorization_failure_inspects app w :
  exists w1 status,
    _handle_authorization_failure vendor self toolset entity app w = (w1, Ok status) /\
    In (CallAppsGet app) (calls w1).
Proof.
  unfold _handle_authorization_failure, try_except.
  match goal with |- context [match ?m w with _ => _ end] =>
    destruct (m w) as [w1 [status|e]] eqn:Hm
  end.
  - exists w1, status. split; [reflexivity|].
    unfold client_apps_get in Hm.
    eapply (first_call_logged (fun _ => True)); [| exact Hm].
    intros auth_schemes.
    unfold _process_api_key_auth, _initiate_default_connection,
      entity_initiate_connection.
    repeat logs_step.
  - exists w1, "Error". split; [reflexivity|].
    unfold client_apps_get in Hm.
    eapply (first_call_logged (fun _ => True)); [| exact Hm].
    intros auth_schemes.
    unfold _process_api_key_auth, _initiate_default_connection,
      entity_initiate_connection.
    repeat logs_step.
Qed.

End Taxonomy.

(** C7, as the code has it: on an [app_names] update the auth schemes are
    inspected exactly when the lookup raised the SDK's "item not found", and
    any other exception of the lookup ends in the "Error: ..." status with an
    empty link; [_check_for_authorization] inspects the auth schemes after
    every exception of the lookup and returns a status string. *)
Theorem lookup_exception_taxonomy
    {ToolSet Entity Tool : Type} (vendor : Vendor ToolSet Entity Tool)
    (self : ComposioAPIComponent) (fv : pyval) (bc : build_config)
    (k : string) (toolset : ToolSet) (entity : Entity) (e : exn) :
  session vendor self k toolset entity ->
  k <> "" ->
  has_status_fields bc ->
  get_connection vendor entity (_get_normalized_app_name self) = Raise e ->
  (exists w',
     update_build_config vendor self fv (Some "app_names") (enter bc)
       = (w', Ok (config w')) /\
     (In (CallAppsGet (_get_normalized_app_name self)) (calls w')
      <-> is_NoItemsFound e = true) /\
     (is_NoItemsFound e = false ->
      item (config w') "auth_status" "value" = Some (VStr ("Error: " ++ exn_str e)) /\
      item (config w') "auth_link" "value" = Some (VStr ""))) /\
  (exists w' status,
     _check_for_authorization vendor self (_get_normalized_app_name self) (enter bc)
       = (w', Ok status) /\
     In (CallAppsGet (_get_normalized_app_name self)) (calls w')).
Proof.
  intros Hsession Hk Hwf Hconn.
  set (app := _get_normalized_app_name self) in *.
  assert (Hkey : has_api_key self = true)
    by (destruct Hsession as (Hkey & _); eapply has_api_key_some; eassumption).
  split.
  - destruct (is_NoItemsFound e) eqn:Hnf.
    + destruct (check_auth_status vendor self app (enter bc)) as [w1 r] eqn:Hcheck.
      assert (Hin : In (CallAppsGet app) (calls w1)).
      { rewrite (check_auth_status_session vendor self k toolset entity Hsession)
          in Hcheck.
        eapply resolve_not_found_inspects; eassumption. }
      destruct r as [[]|e1].
      * destruct (update_app_names_ok vendor self fv bc _ Hkey Hwf Hcheck)
          as (w' & Hrun & Hcalls & _).
        exists w'. rewrite Hcalls. split; [exact Hrun|]. split; [tauto | discriminate].
      * destruct (update_app_names_raise vendor self fv bc _ _ Hkey Hwf Hcheck)
          as (w' & Hrun & Hcalls & _).
        exists w'. rewrite Hcalls. split; [exact Hrun|]. split; [tauto | discriminate].
    + pose proof (resolve_lookup_failure vendor toolset entity app e
                    (in_session self k (enter bc)) Hconn Hnf) as Hres.
      rewrite <- (check_auth_status_session vendor self k toolset entity Hsession)
        in Hres.
      destruct (update_app_names_raise vendor self fv bc _ _ Hkey Hwf Hres)
        as (w' & Hrun & Hcalls & Hstatus & Hlink).
      exists w'. rewrite Hcalls. split; [exact Hrun|]. split.
      * simpl. split; [| discriminate].
        intros [H | [H | [H | []]]]; discriminate.
      * intros _. split; assumption.
  - rewrite (check_for_authorization_lookup_raises vendor self k toolset entity Hsession
               app e) by exact Hconn.
    apply handle_authorization_failure_inspects.
Qed.

Lemma lookup_exception_taxonomy_witness :
  session Sample.unreachable_sdk Sample.github "secret" "secret" "default" /\
  get_connection Sample.unreachable_sdk "default" "GITHUB"
    = Raise (VendorError "connection reset") /\
  (exists w',
     update_build_config Sample.unreachable_sdk Sample.github VNone (Some "app_names")
       (enter Sample.config0) = (w', Ok (config w')) /\
     ~ In (CallAppsGet "GITHUB") (calls w') /\
     item (config w') "auth_status" "value" = Some (VStr "Error: connection reset") /\
     item (config w') "auth_link" "value" = Some (VStr "")) /\
  (exists w' status,
     _check_for_authorization Sample.unreachable_sdk Sample.github "GITHUB"
       (enter Sample.config0) = (w', Ok status) /\
     In (CallAppsGet "GITHUB") (calls w')).
Proof.
  assert (Hs : session Sample.unreachable_sdk Sample.github "secret" "secret" "default")
    by (repeat split; reflexivity).
  assert (Hk : "secret" <> "") by discriminate.
  assert (Hf : has_status_fields Sample.config0)
    by (repeat split; eexists; vm_compute; reflexivity).
  assert (Hc : get_connection Sample.unreachable_sdk "default"
                 (_get_normalized_app_name Sample.github)
               = Raise (VendorError "connection reset")) by reflexivity.
  destruct (lookup_exception_taxonomy Sample.unreachable_sdk Sample.github VNone
              Sample.config0 "secret" "secret" "default" _ Hs Hk Hf Hc)
    as [(w' & Hrun & Hiff & Herr) Hcheck].
  split; [exact Hs|]. split; [exact Hc|]. split.
  - exists w'. split; [exact Hrun|]. split.
    + intros Hin. apply Hiff in Hin. discriminate.
    + apply Herr. reflexivity.
  - exact Hcheck.
Defined.

(** [_check_for_authorization] goes on to the auth schemes after a lookup
    that broke down, and answers with the API-key prompt. *)
Lemma check_for_authorization_takes_any_failure_for_absence :
  get_connection Sample.unreachable_sdk "default" "GITHUB"
    = Raise (VendorError "connection reset") /\
  is_NoItemsFound (VendorError "connection reset") = false /\
  _check_for_authorization Sample.unreachable_sdk
      (Sample.component "GITHUB" "Enter API Key") "GITHUB" (enter Sample.config0)
  = ({| config := Sample.config0;
        calls := [CallComposioToolSet "secret"; CallGetEntity "default";
                  CallGetConnection "GITHUB"; CallAppsGet "GITHUB"] |},
     Ok "Enter API Key") /\
  PyStr.startswith "Enter API Key" "Error" = false.
Proof. repeat split; reflexivity. Qed.

(** ** Failures of the status check *)

(** Conversely, the status check ends in no other exception. *)
Lemma status_check_raises_failure
    {ToolSet Entity Tool : Type} (vendor : Vendor ToolSet Entity Tool)
    (self : ComposioAPIComponent) app w w1 e :
  has_api_key self = true ->
  has_status_fields (config w) ->
  check_auth_status vendor self app w = (w1, Raise e) ->
  status_check_failure vendor self app e.
Proof.
  intros Hkey Hwf Hcheck.
  unfold has_api_key in Hkey. destruct (api_key self) as [k|] eqn:Hk; [|discriminate].
  destruct (ComposioToolSet vendor k) as [toolset|e1] eqn:Hts.
  2:{ unfold check_auth_status in Hcheck.
      erewrite bind_raise in Hcheck
        by (unfold _build_wrapper; rewrite Hk, sdk_run, Hts; reflexivity).
      injection Hcheck as _ <-. eapply fail_toolset; eassumption. }
  destruct (get_entity vendor toolset (entity_id self)) as [entity|e1] eqn:Hen.
  2:{ unfold check_auth_status in Hcheck.
      erewrite bind_ok in Hcheck
        by (unfold _build_wrapper; rewrite Hk, sdk_run, Hts; reflexivity).
      erewrite bind_raise in Hcheck
        by (unfold client_get_entity; rewrite sdk_run, Hen; reflexivity).
      injection Hcheck as _ <-. eapply fail_entity; eassumption. }
  assert (Hs : session vendor self k toolset entity) by (repeat split; assumption).
  rewrite (check_auth_status_session vendor self k toolset entity Hs) in Hcheck.
  assert (Hwf' : has_status_fields (config (in_session self k w))) by exact Hwf.
  destruct (get_connection vendor entity app) as [[]|e0] eqn:Hconn.
  { rewrite (resolve_connected vendor toolset entity app _ Hconn Hwf') in Hcheck.
    discriminate. }
  destruct (is_NoItemsFound e0) eqn:Hnf.
  2:{ rewrite (resolve_lookup_failure vendor toolset entity app e0 _ Hconn Hnf) in Hcheck.
      injection Hcheck as _ <-. eapply fail_lookup; eassumption. }
  destruct (apps_get vendor toolset app) as [[|scheme schemes]|e1] eqn:Happ.
  - rewrite (resolve_no_scheme vendor toolset entity app e0 _ Hconn Hnf Happ) in Hcheck.
    injection Hcheck as _ <-. eapply fail_no_scheme; eassumption.
  - destruct (String.eqb (auth_mode scheme) "API_KEY") eqn:Hmode.
    + rewrite (resolve_api_key vendor toolset entity app e0 scheme schemes _
                 Hconn Hnf Happ Hmode Hwf') in Hcheck.
      discriminate.
    + destruct (initiate_connection vendor entity (default_connection_args app))
        as [connection|e1] eqn:Hinit.
      * rewrite (resolve_link vendor toolset entity app e0 scheme schemes connection _
                   Hconn Hnf Happ Hmode Hinit Hwf') in Hcheck.
        discriminate.
      * rewrite (resolve_initiate_failure vendor toolset entity app e0 scheme schemes e1 _
                   Hconn Hnf Happ Hmode Hinit) in Hcheck.
        injection Hcheck as _ <-. eapply fail_initiate; eassumption.
  - rewrite (resolve_schemes_failure vendor toolset entity app e0 e1 _ Hconn Hnf Happ)
      in Hcheck.
    injection Hcheck as _ <-. eapply fail_schemes; eassumption.
Qed.

(** C1, as the code has it: on an [app_names] update every exception that
    ends the status check leaves "Error: " followed by its message in
    [auth_status] and the empty string in [auth_link], and nothing is raised;
    [_check_for_authorization] answers a failed inspection of the auth
    schemes, or a failed opening of a connection, with the string "Error". *)
Theorem status_check_failures_are_reported
    {ToolSet Entity Tool : Type} (vendor : Vendor ToolSet Entity Tool)
    (self : ComposioAPIComponent) (fv : pyval) (bc : build_config) :
  has_api_key self = true ->
  has_status_fields bc ->
  (forall e,
     status_check_failure vendor self (_get_normalized_app_name self) e ->
     exists w',
       update_build_config vendor self fv (Some "app_names") (enter bc)
         = (w', Ok (config w')) /\
       item (config w') "auth_status" "value" = Some (VStr ("Error: " ++ exn_str e)) /\
       PyStr.startswith ("Error: " ++ exn_str e) "Error:" = true /\
       item (config w') "auth_link" "value" = Some (VStr "")) /\
  (forall app k toolset entity e0 e,
     session vendor self k toolset entity ->
     get_connection vendor entity app = Raise e0 ->
     authorization_failure vendor self toolset entity app e ->
     snd (_check_for_authorization vendor self app (enter bc)) = Ok "Error").
Proof.
  intros Hkey Hwf. split.
  - intros e Hfail.
    destruct (status_check_failure_raises vendor self _ e (enter bc) Hfail)
      as (w1 & Hcheck & _).
    destruct (update_app_names_raise vendor self fv bc _ _ Hkey Hwf Hcheck)
      as (w' & Hrun & _ & Hstatus & Hlink).
    exists w'. repeat split; assumption || reflexivity.
  - intros app k toolset entity e0 e Hsession Hconn Hfail.
    rewrite (check_for_authorization_lookup_raises vendor self k toolset entity Hsession
               app e0) by exact Hconn.
    destruct (handle_authorization_failure_error vendor self toolset entity app e
                (logged (CallGetConnection app) (in_session self k (enter bc))) Hfail)
      as (w1 & -> & _).
    reflexivity.
Qed.

Lemma status_check_failures_are_reported_witness :
  has_api_key Sample.github = true /\
  has_status_fields Sample.config0 /\
  status_check_failure Sample.no_catalog_sdk Sample.github "GITHUB"
    (VendorError "timeout") /\
  (exists w',
     update_build_config Sample.no_catalog_sdk Sample.github VNone (Some "app_names")
       (enter Sample.config0) = (w', Ok (config w')) /\
     item (config w') "auth_status" "value" = Some (VStr "Error: timeout") /\
     PyStr.startswith "Error: timeout" "Error:" = true /\
     item (config w') "auth_link" "value" = Some (VStr "")).
Proof.
  assert (Hk : has_api_key Sample.github = true) by reflexivity.
  assert (Hf : has_status_fields Sample.config0)
    by (repeat split; eexists; vm_compute; reflexivity).
  assert (Hfail : status_check_failure Sample.no_catalog_sdk Sample.github
                    (_get_normalized_app_name Sample.github) (VendorError "timeout")).
  { apply (fail_schemes Sample.no_catalog_sdk Sample.github _
             "secret" "secret" "default" Sample.not_found).
    - repeat split; reflexivity.
    - reflexivity.
    - reflexivity.
    - reflexivity. }
  repeat (split; [assumption|]).
  exact (proj1 (status_check_failures_are_reported Sample.no_catalog_sdk Sample.github
                  VNone Sample.config0 Hk Hf) _ Hfail).
Defined.

(** When the catalog of apps cannot be read, the status string of
    [_check_for_authorization] is "Error", which does not begin with
    "Error:". *)
Lemma check_for_authorization_error_has_no_colon :
  apps_get Sample.no_catalog_sdk "secret" "GITHUB" = Raise (VendorError "timeout") /\
  snd (_check_for_authorization Sample.no_catalog_sdk Sample.github "GITHUB"
         (enter Sample.config0)) = Ok "Error" /\
  PyStr.startswith "Error" "Error:" = false.
Proof. repeat split; reflexivity. Qed.

(** ** Normalization of the selected app name *)

Lemma occurs_app a s1 s2 : occurs a (s1 ++ String a s2) = true.
Proof.
  induction s1 as [|b s1 IH].
  - simpl. rewrite Ascii.eqb_refl. reflexivity.
  - change (Ascii.eqb a b || occurs a (s1 ++ String a s2) = true).
    rewrite IH. apply orb_true_r.
Qed.

Lemma append_cons c s t : String c s ++ t = String c (s ++ t).
Proof. reflexivity. Qed.

Lemma append_empty_r s : s ++ "" = s.
Proof.
  induction s as [|a s IH]; [reflexivity|].
  rewrite append_cons, IH. reflexivity.
Qed.

Lemma startswith_refl s : PyStr.startswith s s = true.
Proof. induction s as [|a s IH]; simpl; [reflexivity|]. rewrite Ascii.eqb_refl. exact IH. Qed.

Lemma startswith_app_split q : forall t r,
  PyStr.startswith (t ++ r) q = true ->
  PyStr.startswith t q = true \/ exists q2, q = t ++ q2 /\ PyStr.startswith r q2 = true.
Proof.
  induction q as [|a q IH]; intros t r H.
  - left. reflexivity.
  - destruct t as [|b t].
    + right. exists (String a q). split; [reflexivity | exact H].
    + rewrite append_cons in H. simpl in H. apply andb_true_iff in H as [Hab Hrest].
      apply Ascii.eqb_eq in Hab as ->.
      destruct (IH t r Hrest) as [Hl | (q2 & -> & Hr)].
      * left. simpl. rewrite Ascii.eqb_refl. exact Hl.
      * right. exists q2. split; [reflexivity | exact Hr].
Qed.

Lemma no_straddle a q s' c t :
  occurs a q = false ->
  PyStr.startswith (String c t ++ String a s') (String a q) = true ->
  PyStr.startswith (String c t) (String a q) = true.
Proof.
  intros Hocc H.
  destruct (startswith_app_split _ _ _ H) as [Hl | (q2 & Heq & Hr)]; [exact Hl|].
  rewrite append_cons in Heq. injection Heq as <- ->.
  destruct q2 as [|x q2].
  - rewrite append_empty_r. apply startswith_refl.
  - simpl in Hr. apply andb_true_iff in Hr as [Hx _]. apply Ascii.eqb_eq in Hx as <-.
    rewrite occurs_app in Hocc. discriminate.
Qed.

Lemma contains_cons sub c s :
  PyStr.contains sub (String c s)
  = PyStr.startswith (String c s) sub || PyStr.contains sub s.
Proof. reflexivity. Qed.

Lemma replace_from_cons old new c s :
  PyStr.replace_from old new 0 (String c s)
  = if PyStr.startswith (String c s) old
    then new ++ PyStr.replace_from old new (String.length old - 1) s
    else String c (PyStr.replace_from old new 0 s).
Proof. reflexivity. Qed.

Lemma contains_app_same_head a q s' base :
  occurs a q = false ->
  PyStr.contains (String a q) base = false ->
  PyStr.contains (String a q) (base ++ String a s')
  = PyStr.contains (String a q) (String a s').
Proof.
  intros Hocc. induction base as [|c b IH]; intros Hno; [reflexivity|].
  rewrite contains_cons in Hno. apply orb_false_elim in Hno as [Hhead Htail].
  rewrite append_cons, contains_cons, (IH Htail), <- append_cons.
  destruct (PyStr.startswith (String c b ++ String a s') (String a q)) eqn:Hs;
    [| reflexivity].
  apply no_straddle in Hs; [| exact Hocc]. congruence.
Qed.

Lemma replace_from_skip_all old new s n :
  String.length s <= n -> PyStr.replace_from old new n s = "".
Proof.
  revert n. induction s as [|c s IH]; intros n Hn; [reflexivity|].
  destruct n as [|n]; simpl in Hn; [lia|].
  simpl. apply IH. lia.
Qed.

Lemma replace_from_absent old new s :
  PyStr.contains old s = false -> PyStr.replace_from old new 0 s = s.
Proof.
  induction s as [|c s IH]; intros Hno; [reflexivity|].
  rewrite contains_cons in Hno. apply orb_false_elim in Hno as [Hhead Htail].
  rewrite replace_from_cons, Hhead, (IH Htail). reflexivity.
Qed.

Lemma replace_from_suffix a q base :
  occurs a q = false ->
  PyStr.contains (String a q) base = false ->
  PyStr.replace_from (String a q) "" 0 (base ++ String a q) = base.
Proof.
  intros Hocc. induction base as [|c b IH]; intros Hno.
  - change ("" ++ String a q) with (String a q).
    rewrite replace_from_cons, startswith_refl.
    change ("" ++ ?x) with x.
    apply replace_from_skip_all. simpl. lia.
  - rewrite contains_cons in Hno. apply orb_false_elim in Hno as [Hhead Htail].
    rewrite append_cons, replace_from_cons, (IH Htail), <- append_cons.
    destruct (PyStr.startswith (String c b ++ String a q) (String a q)) eqn:Hs;
      [| reflexivity].
    apply no_straddle in Hs; [| exact Hocc]. congruence.
Qed.

Lemma normalized_upper self base :
  app_names self = base ++ "_CONNECTED" ->
  PyStr.contains "_CONNECTED" base = false ->
  PyStr.contains "_connected" base = false ->
  _get_normalized_app_name self = base.
Proof.
  intros Happ Hup Hlow. unfold _get_normalized_app_name, PyStr.replace. rewrite Happ.
  rewrite (replace_from_suffix "_" "CONNECTED" base eq_refl Hup).
  apply replace_from_absent, Hlow.
Qed.

Lemma normalized_lower self base :
  app_names self = base ++ "_connected" ->
  PyStr.contains "_CONNECTED" base = false ->
  PyStr.contains "_connected" base = false ->
  _get_normalized_app_name self = base.
Proof.
  intros Happ Hup Hlow. unfold _get_normalized_app_name, PyStr.replace. rewrite Happ.
  rewrite (replace_from_absent "_CONNECTED" "" (base ++ "_connected")).
  - apply (replace_from_suffix "_" "connected" base eq_refl Hlow).
  - rewrite (contains_app_same_head "_" "CONNECTED" "connected" base eq_refl Hup).
    reflexivity.
Qed.

(** Every SDK call of an [app_names] update that names an app names the
    normalized one. *)
Lemma update_names_the_normalized_app
    {ToolSet Entity Tool : Type} (vendor : Vendor ToolSet Entity Tool)
    (self : ComposioAPIComponent) (fv : pyval) :
  logs_only (names_app (_get_normalized_app_name self))
    (update_build_config vendor self fv (Some "app_names")).
Proof.
  unfold update_build_config.
  rewrite bool_decide_eq_false_2 by discriminate.
  rewrite bool_decide_eq_true_2 by reflexivity.
  destruct (has_api_key self); cbv zeta; [| apply logs_get_config].
  unfold check_auth_status, resolve_status, try_except_NoItemsFound, _build_wrapper,
    client_get_entity, entity_get_connection, client_apps_get,
    _initiate_default_connection, entity_initiate_connection.
  repeat logs_step.
Qed.

(** C4, as the code has it: for a display name made of a base name that
    holds neither "_CONNECTED" nor "_connected", followed by the suffix
    "_CONNECTED" or "_connected", [_get_normalized_app_name] is the base name,
    and every SDK call of the [app_names] update that names an app names the
    base name. *)
Theorem normalization_strips_the_two_suffixes
    (self : ComposioAPIComponent) (base suffix : string) :
  app_names self = base ++ suffix ->
  suffix = "_CONNECTED" \/ suffix = "_connected" ->
  PyStr.contains "_CONNECTED" base = false ->
  PyStr.contains "_connected" base = false ->
  _get_normalized_app_name self = base /\
  forall (ToolSet Entity Tool : Type) (vendor : Vendor ToolSet Entity Tool)
         (fv : pyval) (w w' : world) (r : result build_config),
    update_build_config vendor self fv (Some "app_names") w = (w', r) ->
    exists l, calls w' = (calls w ++ l)%list /\ Forall (names_app base) l.
Proof.
  intros Happ Hsuffix Hup Hlow.
  assert (Hnorm : _get_normalized_app_name self = base).
  { destruct Hsuffix as [-> | ->];
      [apply normalized_upper | apply normalized_lower]; assumption. }
  split; [exact Hnorm|].
  intros ToolSet Entity Tool vendor fv w w' r Hrun.
  rewrite <- Hnorm. exact (update_names_the_normalized_app vendor self fv _ _ _ Hrun).
Qed.

Lemma normalization_strips_the_two_suffixes_witness :
  PyStr.contains "_CONNECTED" "GOOGLE_CALENDAR" = false /\
  PyStr.contains "_connected" "GOOGLE_CALENDAR" = false /\
  _get_normalized_app_name (Sample.component "GOOGLE_CALENDAR_connected" "Not Connected")
    = "GOOGLE_CALENDAR".
Proof.
  assert (Hup : PyStr.contains "_CONNECTED" "GOOGLE_CALENDAR" = false) by reflexivity.
  assert (Hlow : PyStr.contains "_connected" "GOOGLE_CALENDAR" = false) by reflexivity.
  repeat (split; [assumption|]).
  exact (proj1 (normalization_strips_the_two_suffixes
                  (Sample.component "GOOGLE_CALENDAR_connected" "Not Connected")
                  "GOOGLE_CALENDAR" "_connected" eq_refl (or_intror eq_refl) Hup Hlow)).
Defined.

(** A suffix in mixed case stays in the name, and the SDK is asked about
    the name with its suffix. *)
Lemma mixed_case_suffix_is_kept :
  _get_normalized_app_name (Sample.component "GITHUB_Connected" "Not Connected")
    = "GITHUB_Connected" /\
  calls (fst (update_build_config Sample.connected_sdk
                (Sample.component "GITHUB_Connected" "Not Connected") VNone
                (Some "app_names") (enter Sample.config0)))
    = [CallComposioToolSet "secret"; CallGetEntity "default";
       CallGetConnection "GITHUB_Connected"].
Proof. split; reflexivity. Qed.

(** ** The [api_key] branch of [update_build_config] *)

Lemma filter_partition_permutation {A} (f : A -> bool) (l : list A) :
  Permutation (List.filter f l ++ List.filter (fun x => negb (f x)) l) l.
Proof.
  induction l as [|a l IH]; simpl.
  - constructor.
  - destruct (f a); simpl.
    + apply perm_skip, IH.
    + apply Permutation_sym.
      apply (Permutation_cons_app (List.filter f l) _ a), Permutation_sym, IH.
Qed.

Lemma is_connected_spec (connections : list string) (app_name : string) :
  is_connected (elements (list_to_set connections : gset string)) app_name = true
  <-> In (PyStr.lower app_name) connections.
Proof.
  unfold is_connected. rewrite bool_decide_eq_true.
  rewrite elem_of_elements, elem_of_list_to_set. apply list_elem_of_In.
Qed.

Section ApiKeyUpdate.

Context {ToolSet Entity Tool : Type}.
Variable vendor : Vendor ToolSet Entity Tool.
Variable self : ComposioAPIComponent.
Variables (k : string) (toolset : ToolSet) (entity : Entity).
Hypothesis Hsession : session vendor self k toolset entity.

Lemma connected_app_names_run connections w :
  get_connections vendor entity = Ok connections ->
  _get_connected_app_names_for_entity vendor self w
  = (logged CallGetConnections (in_session self k w),
     Ok (elements (list_to_set connections : gset string))).
Proof.
  intros Hconns. unfold _get_connected_app_names_for_entity.
  erewrite bind_ok by (apply (build_wrapper_session vendor self k toolset entity Hsession)).
  erewrite bind_ok by (apply (get_entity_session vendor self k toolset entity Hsession)).
  erewrite bind_ok by (rewrite sdk_run, Hconns; reflexivity).
  reflexivity.
Qed.

Lemma update_api_key_run fv bc connections :
  k <> "" ->
  get_connections vendor entity = Ok connections ->
  is_Some (bc !! "app_names") ->
  let connected_app_names := elements (list_to_set connections : gset string) in
  let app_names :=
    map (fun app_name => app_name ++ "_CONNECTED")
      (List.filter (is_connected connected_app_names) (App_annotations vendor)) in
  let non_connected_app_names :=
    List.filter (fun app_name => negb (is_connected connected_app_names app_name))
      (App_annotations vendor) in
  let bc' :=
    assign "app_names" "value" (VStr (hd "" app_names))
      (assign "app_names" "options" (VList (app_names ++ non_connected_app_names)) bc) in
  update_build_config vendor self fv (Some "api_key") (enter bc)
  = (set_config bc' (logged CallGetConnections (in_session self k (enter bc))), Ok bc').
Proof.
  intros Hk Hconns Happ. cbv zeta. unfold update_build_config.
  rewrite bool_decide_eq_true_2 by reflexivity.
  rewrite (has_api_key_some self k) by (try apply Hsession; assumption).
  erewrite bind_ok
    by (unfold _update_app_names_with_connected_status;
        erewrite bind_ok by (apply connected_app_names_run; exact Hconns);
        erewrite bind_ok by (apply set_item_assign; exact Happ);
        apply set_item_assign; simpl; apply assign_field_some; exact Happ).
  reflexivity.
Qed.

End ApiKeyUpdate.

(** C8: after an [api_key] update with a non-empty key the [app_names]
    options are the connected apps, each with the suffix "_CONNECTED", followed
    by the other apps; together they are the known apps, each one once; the
    selected value is the first option with the suffix, or the empty string
    when no app is connected. *)
Theorem api_key_update_lists_connected_apps_first
    {ToolSet Entity Tool : Type} (vendor : Vendor ToolSet Entity Tool)
    (self : ComposioAPIComponent) (fv : pyval) (bc : build_config)
    (k : string) (toolset : ToolSet) (entity : Entity) (connections : list string) :
  session vendor self k toolset entity ->
  k <> "" ->
  get_connections vendor entity = Ok connections ->
  is_Some (bc !! "app_names") ->
  exists w' connected others,
    update_build_config vendor self fv (Some "api_key") (enter bc)
      = (w', Ok (config w')) /\
    item (config w') "app_names" "options"
      = Some (VList (map (fun app => app ++ "_CONNECTED") connected ++ others)) /\
    Permutation (connected ++ others) (App_annotations vendor) /\
    (List.NoDup (App_annotations vendor) -> List.NoDup (connected ++ others)) /\
    (forall app, In app connected -> In (PyStr.lower app) connections) /\
    (forall app, In app others -> ~ In (PyStr.lower app) connections) /\
    item (config w') "app_names" "value"
      = Some (VStr match connected with
                   | app :: _ => app ++ "_CONNECTED"
                   | [] => ""
                   end).
Proof.
  intros Hsession Hk Hconns Happ.
  pose proof (update_api_key_run vendor self k toolset entity Hsession fv bc connections
                Hk Hconns Happ) as Hrun.
  cbv zeta in Hrun.
  set (connected_app_names := elements (list_to_set connections : gset string)) in *.
  set (connected := List.filter (is_connected connected_app_names)
                      (App_annotations vendor)) in *.
  set (others := List.filter (fun app => negb (is_connected connected_app_names app))
                   (App_annotations vendor)) in *.
  eexists _, connected, others.
  split; [exact Hrun|]. cbn [config set_config].
  assert (Hperm : Permutation (connected ++ others) (App_annotations vendor))
    by apply filter_partition_permutation.
  split; [| split; [exact Hperm | split; [| split; [| split]]]].
  - rewrite item_assign_other_key by discriminate.
    apply item_assign_same, Happ.
  - intros Hnd. eapply Permutation_NoDup; [apply Permutation_sym, Hperm | exact Hnd].
  - intros app Hin. apply filter_In in Hin as [_ Hin].
    apply is_connected_spec, Hin.
  - intros app Hin Hlow. apply filter_In in Hin as [_ Hin].
    apply negb_true_iff in Hin. apply is_connected_spec in Hlow.
    unfold connected_app_names in Hin. congruence.
  - rewrite item_assign_same by (apply assign_field_some, Happ).
    destruct connected; reflexivity.
Qed.

Lemma api_key_update_lists_connected_apps_first_witness :
  session Sample.connected_sdk Sample.github "secret" "secret" "default" /\
  get_connections Sample.connected_sdk "default" = Ok ["github"; "slack"; "github"] /\
  is_Some (Sample.config0 !! "app_names") /\
  exists w',
    update_build_config Sample.connected_sdk Sample.github VNone (Some "api_key")
      (enter Sample.config0) = (w', Ok (config w')) /\
    item (config w') "app_names" "options"
      = Some (VList ["GITHUB_CONNECTED"; "SLACK_CONNECTED"; "GMAIL"]) /\
    item (config w') "app_names" "value" = Some (VStr "GITHUB_CONNECTED").
Proof.
  assert (Hs : session Sample.connected_sdk Sample.github "secret" "secret" "default")
    by (repeat split; reflexivity).
  assert (Hc : get_connections Sample.connected_sdk "default"
               = Ok ["github"; "slack"; "github"]) by reflexivity.
  assert (Hf : is_Some (Sample.config0 !! "app_names"))
    by (eexists; vm_compute; reflexivity).
  repeat (split; [assumption|]).
  destruct (api_key_update_lists_connected_apps_first Sample.connected_sdk Sample.github
              VNone Sample.config0 "secret" "secret" "default" _ Hs
              ltac:(discriminate) Hc Hf)
    as (w' & connected & others & Hrun & _).
  exists w'. split; [exact Hrun|].
  assert (Heq : fst (update_build_config Sample.connected_sdk Sample.github VNone
                       (Some "api_key") (enter Sample.config0)) = w')
    by (rewrite Hrun; reflexivity).
  rewrite <- Heq. split; vm_compute; reflexivity.
Defined.

(** ** Tool materialization *)

(** C9: [build_tool] asks the SDK for the tools of the selected actions and
    hands the SDK's answer to its caller as it is, tools or exception; it
    leaves the dictionary alone, and a second call asks the SDK again. *)
Theorem build_tool_hands_over_the_sdk_answer
    {ToolSet Entity Tool : Type} (vendor : Vendor ToolSet Entity Tool)
    (self : ComposioAPIComponent) (k : string) (w : world) :
  api_key self = Some k ->
  (forall toolset,
     ComposioToolSet vendor k = Ok toolset ->
     snd (build_tool vendor self w) = get_tools vendor toolset (action_names self) /\
     config (fst (build_tool vendor self w)) = config w /\
     calls (fst (build_tool vendor self w))
       = (calls w ++ [CallComposioToolSet k; CallGetTools (action_names self)])%list /\
     forall tools,
       get_tools vendor toolset (action_names self) = Ok tools ->
       (let* _ := build_tool vendor self in build_tool vendor self) w
       = ({| config := config w;
             calls := calls w ++ [CallComposioToolSet k; CallGetTools (action_names self);
                                  CallComposioToolSet k; CallGetTools (action_names self)] |},
          Ok tools)) /\
  (forall e,
     ComposioToolSet vendor k = Raise e ->
     snd (build_tool vendor self w) = Raise e /\
     config (fst (build_tool vendor self w)) = config w).
Proof.
  intros Hk.
  assert (Hwrap : forall w0, _build_wrapper vendor self w0
                             = (logged (CallComposioToolSet k) w0, ComposioToolSet vendor k)).
  { intros w0. unfold _build_wrapper. rewrite Hk. apply sdk_run. }
  split.
  - intros toolset Hts.
    assert (Hrun : forall w0, build_tool vendor self w0
                    = (logged (CallGetTools (action_names self))
                         (logged (CallComposioToolSet k) w0),
                       get_tools vendor toolset (action_names self))).
    { intros w0. unfold build_tool.
      erewrite bind_ok by (rewrite Hwrap, Hts; reflexivity).
      apply sdk_run. }
    rewrite Hrun. cbn [fst snd config calls logged].
    split; [reflexivity | split; [reflexivity | split]].
    + rewrite <- app_assoc. reflexivity.
    + intros tools Htools.
      erewrite bind_ok by (rewrite Hrun, Htools; reflexivity).
      rewrite Hrun, Htools. unfold logged. cbn [config calls].
      rewrite <- !app_assoc. reflexivity.
  - intros e Hts. unfold build_tool.
    erewrite bind_raise by (rewrite Hwrap, Hts; reflexivity).
    split; reflexivity.
Qed.

Lemma build_tool_hands_over_the_sdk_answer_witness :
  api_key Sample.github = Some "secret" /\
  build_tool Sample.connected_sdk Sample.github (enter Sample.config0)
  = ({| config := Sample.config0;
        calls := [CallComposioToolSet "secret"; CallGetTools ["GITHUB_STAR_REPO"]] |},
     Ok ["GITHUB_STAR_REPO"]).
Proof.
  split; [reflexivity|].
  destruct (build_tool_hands_over_the_sdk_answer Sample.connected_sdk Sample.github
              "secret" (enter Sample.config0) eq_refl) as [Hok _].
  destruct (Hok "secret" eq_refl) as (Hres & Hcfg & Hcalls & _).
  destruct (build_tool Sample.connected_sdk Sample.github (enter Sample.config0))
    as [[cfg log] res].
  simpl in Hres, Hcfg, Hcalls. rewrite Hres, Hcfg, Hcalls. reflexivity.
Defined.

(** ** The frame of [update_build_config] *)

Lemma has_api_key_false self :
  api_key self = None \/ api_key self = Some "" -> has_api_key self = false.
Proof. unfold has_api_key. intros [-> | ->]; reflexivity. Qed.

(** C10: for a field name other than "api_key" and "app_names", and
    whenever [api_key] is missing or empty, [update_build_config] returns the
    dictionary it was given, with no SDK call. *)
Theorem update_build_config_frame
    {ToolSet Entity Tool : Type} (vendor : Vendor ToolSet Entity Tool)
    (self : ComposioAPIComponent) (fv : pyval) (field_name : option string)
    (w : world) :
  (field_name <> Some "api_key" /\ field_name <> Some "app_names") \/
  api_key self = None \/ api_key self = Some "" ->
  update_build_config vendor self fv field_name w = (w, Ok (config w)).
Proof.
  intros Hframe. unfold update_build_config.
  destruct Hframe as [[Hk Ha] | Hkey].
  - rewrite !bool_decide_eq_false_2 by assumption. reflexivity.
  - rewrite (has_api_key_false self Hkey).
    repeat case_bool_decide; try rewrite andb_false_r; reflexivity.
Qed.

Lemma update_build_config_frame_witness :
  api_key (Build_ComposioAPIComponent "default" (Some "") "GITHUB" None []) = Some "" /\
  update_build_config Sample.oauth_sdk
    (Build_ComposioAPIComponent "default" (Some "") "GITHUB" None [])
    VNone (Some "app_names") (enter Sample.config0)
  = (enter Sample.config0, Ok Sample.config0).
Proof.
  split; [reflexivity|].
  exact (update_build_config_frame Sample.oauth_sdk
           (Build_ComposioAPIComponent "default" (Some "") "GITHUB" None [])
           VNone (Some "app_names") (enter Sample.config0)
           (or_intror (or_intror eq_refl))).
Defined.

(** ** What [update_build_config] leaves alone *)

Section Touches.

Variable S : string -> string -> Prop.

Lemma touches_ret {A} (a : A) : touches_only S (ret a).
Proof. intros w w' r [= <- _] f k _. reflexivity. Qed.

Lemma touches_raise {A} e : touches_only S (@raise A e).
Proof. intros w w' r [= <- _] f k _. reflexivity. Qed.

Lemma touches_get_config : touches_only S get_config.
Proof. intros w w' r [= <- _] f k _. reflexivity. Qed.

Lemma touches_sdk {A} c (r : result A) : touches_only S (sdk c r).
Proof. intros w w' r' [= <- _] f k _. reflexivity. Qed.

Lemma touches_index0 {A} (l : list A) : touches_only S (index0 l).
Proof. destruct l; [apply touches_raise | apply touches_ret]. Qed.

Lemma touches_set_item field key v : S field key -> touches_only S (set_item field key v).
Proof.
  intros HS w w' r H f k Hout.
  destruct (config w !! field) as [d|] eqn:Hd.
  - rewrite set_item_assign in H by (rewrite Hd; eauto).
    injection H as <- _. cbn [config].
    destruct (decide (field = f)) as [<-|Hf].
    + apply item_assign_other_key. intros <-. exact (Hout HS).
    + apply item_assign_other_field, Hf.
  - rewrite set_item_missing in H by exact Hd. injection H as <- _. reflexivity.
Qed.

Lemma touches_bind {A B} (m : M A) (k : A -> M B) :
  touches_only S m -> (forall a, touches_only S (k a)) -> touches_only S (bind m k).
Proof.
  intros Hm Hk w w' r H f key Hout. unfold bind in H.
  destruct (m w) as [w1 [a|e]] eqn:Hmw.
  - rewrite (Hk a _ _ _ H f key Hout). exact (Hm _ _ _ Hmw f key Hout).
  - injection H as <- _. exact (Hm _ _ _ Hmw f key Hout).
Qed.

Lemma touches_try_except {A} (m : M A) h :
  touches_only S m -> (forall e, touches_only S (h e)) -> touches_only S (try_except m h).
Proof.
  intros Hm Hh w w' r H f key Hout. unfold try_except in H.
  destruct (m w) as [w1 [a|e]] eqn:Hmw.
  - injection H as <- _. exact (Hm _ _ _ Hmw f key Hout).
  - rewrite (Hh e _ _ _ H f key Hout). exact (Hm _ _ _ Hmw f key Hout).
Qed.

End Touches.

Create HintDb touches discriminated.
#[local] Hint Resolve touches_ret touches_raise touches_get_config touches_sdk
  touches_index0 : touches.

Ltac touches_step :=
  first
    [ apply touches_bind; [| intros ?]
    | apply touches_try_except; [| intros ?]
    | apply touches_set_item; unfold status_items, app_names_items; tauto
    | solve [auto with touches]
    | match goal with
      | |- touches_only _ (if ?b then _ else _) => destruct b
      | |- touches_only _ (match ?x with _ => _ end) => destruct x
      end ].

Ltac unfold_methods :=
  unfold update_build_config, _update_app_names_with_connected_status,
    _get_connected_app_names_for_entity, check_auth_status, resolve_status,
    try_except_NoItemsFound, _build_wrapper, client_get_entity, entity_get_connection,
    client_apps_get, _initiate_default_connection, entity_initiate_connection;
  cbv zeta.

Section Frame.

Context {ToolSet Entity Tool : Type}.
Variable vendor : Vendor ToolSet Entity Tool.
Variable self : ComposioAPIComponent.

Lemma touches_app_names_update fv :
  touches_only status_items (update_build_config vendor self fv (Some "app_names")).
Proof.
  unfold update_build_config.
  rewrite bool_decide_eq_false_2 by discriminate.
  rewrite bool_decide_eq_true_2 by reflexivity.
  destruct (has_api_key self); [| apply touches_get_config].
  unfold_methods. repeat touches_step.
Qed.

Lemma touches_api_key_update fv :
  touches_only app_names_items (update_build_config vendor self fv (Some "api_key")).
Proof.
  unfold update_build_config.
  rewrite bool_decide_eq_true_2 by reflexivity.
  unfold_methods. repeat touches_step.
Qed.

Lemma keeps_update_build_config fv field_name :
  keeps_fields (update_build_config vendor self fv field_name).
Proof.
  unfold_methods.
  assert (Hget : keeps_fields get_config)
    by (intros w w' r [= <- _] f; reflexivity).
  repeat first [ exact Hget | keeps_step ].
Qed.

Lemma logs_update_build_config fv field_name :
  logs_only (allowed_call field_name (_get_normalized_app_name self))
    (update_build_config vendor self fv field_name).
Proof.
  unfold update_build_config.
  destruct (bool_decide (field_name = Some "api_key")) eqn:Hapi.
  - apply bool_decide_eq_true in Hapi as ->.
    unfold_methods.
    repeat first [ apply logs_sdk; simpl; solve [exact I | reflexivity] | logs_step ].
  - destruct (bool_decide (field_name = Some "app_names")) eqn:Happ;
      [| apply logs_get_config].
    apply bool_decide_eq_true in Happ as ->.
    destruct (has_api_key self); [| apply logs_get_config].
    unfold_methods.
    repeat first [ apply logs_sdk; simpl; solve [exact I | split; reflexivity]
                 | logs_step ].
Qed.

End Frame.

(** X1: [update_build_config] neither adds nor removes a field of the
    dictionary, for every field name and every behaviour of the SDK, also when
    it raises. *)
Theorem update_build_config_keeps_the_fields
    {ToolSet Entity Tool : Type} (vendor : Vendor ToolSet Entity Tool)
    (self : ComposioAPIComponent) (fv : pyval) (field_name : option string)
    (w : world) (f : string) :
  is_Some (config (fst (update_build_config vendor self fv field_name w)) !! f)
  <-> is_Some (config w !! f).
Proof.
  destruct (update_build_config vendor self fv field_name w) as [w' r] eqn:Hrun.
  exact (keeps_update_build_config vendor self fv field_name _ _ _ Hrun f).
Qed.

(** X2: an [app_names] update writes nothing but the value of
    [auth_status], the value of [auth_link], and the options and the value of
    [action_names]. *)
Theorem app_names_update_frame
    {ToolSet Entity Tool : Type} (vendor : Vendor ToolSet Entity Tool)
    (self : ComposioAPIComponent) (fv : pyval) (w : world) (f k : string) :
  ~ status_items f k ->
  item (config (fst (update_build_config vendor self fv (Some "app_names") w))) f k
  = item (config w) f k.
Proof.
  intros Hout.
  destruct (update_build_config vendor self fv (Some "app_names") w) as [w' r] eqn:Hrun.
  exact (touches_app_names_update vendor self fv _ _ _ Hrun f k Hout).
Qed.

Lemma app_names_update_frame_witness :
  ~ status_items "app_names" "options" /\
  item (config (fst (update_build_config Sample.oauth_sdk Sample.github VNone
                       (Some "app_names") (enter Sample.config0)))) "app_names" "options"
  = Some (VList []).
Proof.
  assert (Hout : ~ status_items "app_names" "options").
  { unfold status_items. intros [[H _] | [[H _] | [H _]]]; discriminate. }
  split; [exact Hout|].
  rewrite (app_names_update_frame Sample.oauth_sdk Sample.github VNone
             (enter Sample.config0) "app_names" "options" Hout).
  vm_compute. reflexivity.
Defined.

(** X3: an [api_key] update writes nothing but the options and the value
    of [app_names]. *)
Theorem api_key_update_frame
    {ToolSet Entity Tool : Type} (vendor : Vendor ToolSet Entity Tool)
    (self : ComposioAPIComponent) (fv : pyval) (w : world) (f k : string) :
  ~ app_names_items f k ->
  item (config (fst (update_build_config vendor self fv (Some "api_key") w))) f k
  = item (config w) f k.
Proof.
  intros Hout.
  destruct (update_build_config vendor self fv (Some "api_key") w) as [w' r] eqn:Hrun.
  exact (touches_api_key_update vendor self fv _ _ _ Hrun f k Hout).
Qed.

Lemma api_key_update_frame_witness :
  ~ app_names_items "auth_link" "value" /\
  item (config (fst (update_build_config Sample.connected_sdk Sample.github VNone
                       (Some "api_key") (enter Sample.config0)))) "auth_link" "value"
  = Some (VStr "https://old.example/link").
Proof.
  assert (Hout : ~ app_names_items "auth_link" "value").
  { unfold app_names_items. intros [H _]. discriminate. }
  split; [exact Hout|].
  rewrite (api_key_update_frame Sample.connected_sdk Sample.github VNone
             (enter Sample.config0) "auth_link" "value" Hout).
  vm_compute. reflexivity.
Defined.

(** X4: the SDK calls of [update_build_config] come after the calls
    already logged; it never asks for tools, lists the connections only on an
    [api_key] update, and only on an [app_names] update looks up, inspects or
    opens a connection, always for the normalized app name and, when it opens
    one, with the default arguments. *)
Theorem update_build_config_calls
    {ToolSet Entity Tool : Type} (vendor : Vendor ToolSet Entity Tool)
    (self : ComposioAPIComponent) (fv : pyval) (field_name : option string)
    (w : world) :
  exists l,
    calls (fst (update_build_config vendor self fv field_name w)) = (calls w ++ l)%list /\
    Forall (allowed_call field_name (_get_normalized_app_name self)) l.
Proof.
  destruct (update_build_config vendor self fv field_name w) as [w' r] eqn:Hrun.
  exact (logs_update_build_config vendor self fv field_name _ _ _ Hrun).
Qed.

(** ** Every outcome of the status check *)

Section Outcomes.

Context {ToolSet Entity Tool : Type}.
Variable vendor : Vendor ToolSet Entity Tool.
Variables (toolset : ToolSet) (entity : Entity).

(** The seven ways through [resolve_status], each with the world it ends in. *)
Lemma resolve_status_outcomes app w :
  has_status_fields (config w) ->
  (get_connection vendor entity app = Ok tt /\
   resolve_status vendor toolset entity app w
   = (set_config
        (assign "auth_link" "value" (VStr "")
           (assign "auth_status" "value" (VStr (app ++ " CONNECTED")) (config w)))
        (logged (CallGetConnection app) w), Ok tt)) \/
  (exists e,
     get_connection vendor entity app = Raise e /\ is_NoItemsFound e = false /\
     resolve_status vendor toolset entity app w
     = (logged (CallGetConnection app) w, Raise e)) \/
  (exists e0,
     get_connection vendor entity app = Raise e0 /\ is_NoItemsFound e0 = true /\
     ((exists e,
         apps_get vendor toolset app = Raise e /\
         resolve_status vendor toolset entity app w
         = (logged (CallAppsGet app) (logged (CallGetConnection app) w), Raise e)) \/
      (apps_get vendor toolset app = Ok [] /\
       resolve_status vendor toolset entity app w
       = (logged (CallAppsGet app) (logged (CallGetConnection app) w),
          Raise (IndexError "list index out of range"))) \/
      (exists scheme schemes,
         apps_get vendor toolset app = Ok (scheme :: schemes) /\
         ((auth_mode scheme = "API_KEY" /\
           resolve_status vendor toolset entity app w
           = (set_config
                (assign "auth_link" "value" (VStr "")
                   (assign "auth_status" "value" (VStr "Enter API Key") (config w)))
                (logged (CallAppsGet app) (logged (CallGetConnection app) w)), Ok tt)) \/
          (auth_mode scheme <> "API_KEY" /\
           ((exists e,
               initiate_connection vendor entity (default_connection_args app) = Raise e /\
               resolve_status vendor toolset entity app w
               = (logged (CallInitiateConnection (default_connection_args app))
                    (logged (CallAppsGet app) (logged (CallGetConnection app) w)),
                  Raise e)) \/
            (exists connection,
               initiate_connection vendor entity (default_connection_args app)
                 = Ok connection /\
               resolve_status vendor toolset entity app w
               = (set_config
                    (assign "auth_status" "value" (VStr "Click link to authenticate")
                       (assign "auth_link" "value" (VStr (redirectUrl connection))
                          (config w)))
                    (logged (CallInitiateConnection (default_connection_args app))
                       (logged (CallAppsGet app) (logged (CallGetConnection app) w))),
                  Ok tt)))))))).
Proof.
  intros Hwf.
  destruct (get_connection vendor entity app) as [[]|e0] eqn:Hconn.
  { left. split; [reflexivity|]. apply resolve_connected; assumption. }
  right. destruct (is_NoItemsFound e0) eqn:Hnf.
  2:{ left. exists e0. repeat split; try assumption.
      apply resolve_lookup_failure; assumption. }
  right. exists e0. split; [reflexivity|]. split; [assumption|].
  destruct (apps_get vendor toolset app) as [[|scheme schemes]|e] eqn:Happ.
  - right. left. split; [reflexivity|]. eapply resolve_no_scheme; eassumption.
  - right. right. exists scheme, schemes. split; [reflexivity|].
    destruct (String.eqb (auth_mode scheme) "API_KEY") eqn:Hmode.
    + left. split; [apply String.eqb_eq, Hmode|].
      eapply resolve_api_key; eassumption.
    + right. split; [apply String.eqb_neq, Hmode|].
      destruct (initiate_connection vendor entity (default_connection_args app))
        as [connection|e] eqn:Hinit.
      * right. exists connection. split; [reflexivity|].
        eapply resolve_link; eassumption.
      * left. exists e. split; [reflexivity|].
        eapply resolve_initiate_failure; eassumption.
  - left. exists e. split; [reflexivity|]. eapply resolve_schemes_failure; eassumption.
Qed.

End Outcomes.

Lemma status_check_ok_session
    {ToolSet Entity Tool : Type} (vendor : Vendor ToolSet Entity Tool)
    (self : ComposioAPIComponent) app w w1 :
  check_auth_status vendor self app w = (w1, Ok tt) ->
  exists k toolset entity, session vendor self k toolset entity.
Proof.
  intros Hcheck. unfold check_auth_status, _build_wrapper in Hcheck.
  destruct (api_key self) as [k|] eqn:Hk; [| discriminate].
  destruct (ComposioToolSet vendor k) as [toolset|e] eqn:Hts.
  2:{ erewrite bind_raise in Hcheck by (rewrite sdk_run; reflexivity). discriminate. }
  erewrite bind_ok in Hcheck by (rewrite sdk_run; reflexivity).
  destruct (get_entity vendor toolset (entity_id self)) as [entity|e] eqn:Hen.
  2:{ erewrite bind_raise in Hcheck
        by (unfold client_get_entity; rewrite sdk_run, Hen; reflexivity).
      discriminate. }
  exists k, toolset, entity. repeat split; assumption.
Qed.

(** X5: after an [app_names] update with a usable key, [auth_status] and
    [auth_link] are in one of four states: "<app> CONNECTED" with an empty
    link, "Enter API Key" with an empty link, "Click link to authenticate" with
    the link the SDK gave, or "Error: <message>" with an empty link. *)
Theorem app_names_update_status_is_one_of_four
    {ToolSet Entity Tool : Type} (vendor : Vendor ToolSet Entity Tool)
    (self : ComposioAPIComponent) (fv : pyval) (bc : build_config) :
  has_api_key self = true ->
  has_status_fields bc ->
  exists w' status link,
    update_build_config vendor self fv (Some "app_names") (enter bc)
      = (w', Ok (config w')) /\
    item (config w') "auth_status" "value" = Some (VStr status) /\
    item (config w') "auth_link" "value" = Some (VStr link) /\
    ((status = _get_normalized_app_name self ++ " CONNECTED" /\ link = "") \/
     (status = "Enter API Key" /\ link = "") \/
     (status = "Click link to authenticate" /\
      exists toolset entity connection,
        initiate_connection vendor entity
          (default_connection_args (_get_normalized_app_name self)) = Ok connection /\
        get_entity vendor toolset (entity_id self) = Ok entity /\
        link = redirectUrl connection) \/
     (exists e, status = "Error: " ++ exn_str e /\ link = "")).
Proof.
  intros Hkey Hwf.
  set (app := _get_normalized_app_name self).
  destruct (check_auth_status vendor self app (enter bc)) as [w1 [[]|e]] eqn:Hcheck.
  2:{ destruct (update_app_names_raise vendor self fv bc _ _ Hkey Hwf Hcheck)
        as (w' & Hrun & _ & Hstatus & Hlink).
      exists w', ("Error: " ++ exn_str e), "".
      repeat (split; [assumption|]). right. right. right. exists e. split; reflexivity. }
  destruct (update_app_names_ok vendor self fv bc _ Hkey Hwf Hcheck)
    as (w' & Hrun & _ & Hsame).
  destruct (status_check_ok_session vendor self _ _ _ Hcheck)
    as (k & toolset & entity & Hsession).
  rewrite (check_auth_status_session vendor self k toolset entity Hsession) in Hcheck.
  assert (Hwf' : has_status_fields (config (in_session self k (enter bc)))) by exact Hwf.
  destruct Hwf as (Hst & Hlink & _).
  destruct (resolve_status_outcomes vendor toolset entity app _ Hwf')
    as [[_ Hres] | [(e & _ & _ & Hres)
       | (e0 & _ & _ & [(e & _ & Hres) | [[_ Hres]
          | (scheme & schemes & _ & [[_ Hres]
             | [_ [(e & _ & Hres) | (connection & Hinit & Hres)]]])]])]];
    rewrite Hres in Hcheck; try discriminate;
    injection Hcheck as <-; cbn [config set_config] in Hsame.
  - exists w', (app ++ " CONNECTED"), "". split; [exact Hrun|].
    rewrite !Hsame by discriminate. split; [| split; [| left; split; reflexivity]].
    + rewrite item_assign_other_field by discriminate. apply item_assign_same, Hst.
    + apply item_assign_same, assign_field_some, Hlink.
  - exists w', "Enter API Key", "". split; [exact Hrun|].
    rewrite !Hsame by discriminate.
    split; [| split; [| right; left; split; reflexivity]].
    + rewrite item_assign_other_field by discriminate. apply item_assign_same, Hst.
    + apply item_assign_same, assign_field_some, Hlink.
  - exists w', "Click link to authenticate", (redirectUrl connection).
    split; [exact Hrun|]. rewrite !Hsame by discriminate.
    split; [| split].
    + apply item_assign_same, assign_field_some, Hst.
    + rewrite item_assign_other_field by discriminate. apply item_assign_same, Hlink.
    + right. right. left. split; [reflexivity|].
      exists toolset, entity, connection. split; [exact Hinit|].
      split; [apply Hsession | reflexivity].
Qed.

Lemma app_names_update_status_is_one_of_four_witness :
  has_api_key Sample.github = true /\
  has_status_fields Sample.config0 /\
  exists w' status link,
    update_build_config Sample.oauth_sdk Sample.github VNone (Some "app_names")
      (enter Sample.config0) = (w', Ok (config w')) /\
    item (config w') "auth_status" "value" = Some (VStr status) /\
    item (config w') "auth_link" "value" = Some (VStr link).
Proof.
  assert (Hk : has_api_key Sample.github = true) by reflexivity.
  assert (Hf : has_status_fields Sample.config0)
    by (repeat split; eexists; vm_compute; reflexivity).
  repeat (split; [assumption|]).
  destruct (app_names_update_status_is_one_of_four Sample.oauth_sdk Sample.github VNone
              Sample.config0 Hk Hf)
    as (w' & status & link & Hrun & Hstatus & Hlink & _).
  exists w', status, link. repeat split; assumption.
Defined.

(** X6: an [app_names] update opens a connection only for an app that has
    none (the lookup raised the SDK's "item not found") and whose first auth
    scheme is not "API_KEY". *)
Theorem connection_opened_only_for_link_apps
    {ToolSet Entity Tool : Type} (vendor : Vendor ToolSet Entity Tool)
    (self : ComposioAPIComponent) (fv : pyval) (bc : build_config)
    (k : string) (toolset : ToolSet) (entity : Entity) (args : initiate_args) :
  session vendor self k toolset entity ->
  k <> "" ->
  has_status_fields bc ->
  In (CallInitiateConnection args)
     (calls (fst (update_build_config vendor self fv (Some "app_names") (enter bc)))) ->
  (exists e0,
     get_connection vendor entity (_get_normalized_app_name self) = Raise e0 /\
     is_NoItemsFound e0 = true) /\
  (exists scheme schemes,
     apps_get vendor toolset (_get_normalized_app_name self) = Ok (scheme :: schemes) /\
     auth_mode scheme <> "API_KEY").
Proof.
  intros Hsession Hk Hwf Hin.
  set (app := _get_normalized_app_name self) in *.
  assert (Hkey : has_api_key self = true)
    by (destruct Hsession as (Hkey & _); eapply has_api_key_some; eassumption).
  assert (Hcalls : exists w1 r,
             check_auth_status vendor self app (enter bc) = (w1, r) /\
             calls (fst (update_build_config vendor self fv (Some "app_names") (enter bc)))
             = calls w1).
  { destruct (check_auth_status vendor self app (enter bc)) as [w1 [[]|e]] eqn:Hcheck.
    - destruct (update_app_names_ok vendor self fv bc _ Hkey Hwf Hcheck)
        as (w' & Hrun & Hc & _).
      exists w1, (Ok tt). rewrite Hrun. split; [reflexivity | exact Hc].
    - destruct (update_app_names_raise vendor self fv bc _ _ Hkey Hwf Hcheck)
        as (w' & Hrun & Hc & _).
      exists w1, (Raise e). rewrite Hrun. split; [reflexivity | exact Hc]. }
  destruct Hcalls as (w1 & r & Hcheck & Hcalls). rewrite Hcalls in Hin. clear Hcalls.
  rewrite (check_auth_status_session vendor self k toolset entity Hsession) in Hcheck.
  assert (Hwf' : has_status_fields (config (in_session self k (enter bc)))) by exact Hwf.
  destruct (resolve_status_outcomes vendor toolset entity app _ Hwf')
    as [[_ Hres] | [(e & _ & _ & Hres)
       | (e0 & Hconn & Hnf & [(e & _ & Hres) | [[_ Hres]
          | (scheme & schemes & Happ & [[_ Hres]
             | [Hmode [(e & _ & Hres) | (connection & _ & Hres)]]])]])]];
    rewrite Hres in Hcheck; injection Hcheck as <- _; simpl in Hin;
    try (decompose [or] Hin; discriminate || contradiction).
  - split; [exists e0; split; assumption | exists scheme, schemes; split; assumption].
  - split; [exists e0; split; assumption | exists scheme, schemes; split; assumption].
Qed.

Lemma connection_opened_only_for_link_apps_witness :
  In (CallInitiateConnection (default_connection_args "GITHUB"))
     (calls (fst (update_build_config Sample.oauth_sdk Sample.github VNone
                    (Some "app_names") (enter Sample.config0)))) /\
  exists scheme schemes,
    apps_get Sample.oauth_sdk "secret" "GITHUB" = Ok (scheme :: schemes) /\
    auth_mode scheme <> "API_KEY".
Proof.
  assert (Hin : In (CallInitiateConnection (default_connection_args "GITHUB"))
                  (calls (fst (update_build_config Sample.oauth_sdk Sample.github VNone
                                 (Some "app_names") (enter Sample.config0)))))
    by (vm_compute; auto 10).
  split; [exact Hin|].
  refine (proj2 (connection_opened_only_for_link_apps Sample.oauth_sdk Sample.github VNone
                   Sample.config0 "secret" "secret" "default" _ _ _ _ Hin)).
  - repeat split; reflexivity.
  - discriminate.
  - repeat split; eexists; vm_compute; reflexivity.
Defined.

(** ** Missing fields and SDK failures outside the guarded block *)

(** X7: on a dictionary without the [action_names] field, an [app_names]
    update with a usable key raises [KeyError] for that field, whatever the SDK
    answered during the status check. *)
Theorem app_names_update_without_action_names
    {ToolSet Entity Tool : Type} (vendor : Vendor ToolSet Entity Tool)
    (self : ComposioAPIComponent) (fv : pyval) (bc : build_config) :
  has_api_key self = true ->
  is_Some (bc !! "auth_status") ->
  is_Some (bc !! "auth_link") ->
  bc !! "action_names" = None ->
  snd (update_build_config vendor self fv (Some "app_names") (enter bc))
  = Raise (KeyError "action_names").
Proof.
  intros Hkey Hst Hlink Hnone.
  rewrite update_app_names_branch by assumption.
  destruct (check_auth_status vendor self (_get_normalized_app_name self) (enter bc))
    as [w1 r] eqn:Hcheck.
  pose proof (keeps_check_auth_status vendor self _ _ _ _ Hcheck) as Hkeep.
  assert (Hst1 : is_Some (config w1 !! "auth_status")) by (apply Hkeep; exact Hst).
  assert (Hlink1 : is_Some (config w1 !! "auth_link")) by (apply Hkeep; exact Hlink).
  assert (Hnone1 : config w1 !! "action_names" = None).
  { destruct (config w1 !! "action_names") eqn:Hact; [| reflexivity].
    assert (Hsome : is_Some (config (enter bc) !! "action_names"))
      by (apply Hkeep; rewrite Hact; eauto).
    simpl in Hsome. rewrite Hnone in Hsome. destruct Hsome; discriminate. }
  destruct r as [[]|e].
  - erewrite bind_ok by (eapply try_except_ok; exact Hcheck).
    erewrite bind_raise by (apply set_item_missing; exact Hnone1).
    reflexivity.
  - erewrite bind_ok
      by (erewrite try_except_raise by exact Hcheck;
          erewrite bind_ok by (apply set_item_assign; exact Hlink1);
          apply set_item_assign; simpl; apply assign_field_some; exact Hst1).
    erewrite bind_raise
      by (apply set_item_missing; simpl;
          rewrite eq_None_not_Some, !assign_field_some, <- eq_None_not_Some;
          exact Hnone1).
    reflexivity.
Qed.

Lemma app_names_update_without_action_names_witness :
  snd (update_build_config Sample.connected_sdk Sample.github VNone (Some "app_names")
         (enter (delete "action_names" Sample.config0)))
  = Raise (KeyError "action_names").
Proof.
  apply (app_names_update_without_action_names Sample.connected_sdk Sample.github VNone
           (delete "action_names" Sample.config0)).
  - reflexivity.
  - eexists; vm_compute; reflexivity.
  - eexists; vm_compute; reflexivity.
  - vm_compute; reflexivity.
Defined.

(** X8: an [api_key] update has no handler: an exception of the toolset
    constructor, of [get_entity] or of [get_connections] reaches the caller as
    it is, and the dictionary is as it was. *)
Theorem api_key_update_passes_sdk_errors_on
    {ToolSet Entity Tool : Type} (vendor : Vendor ToolSet Entity Tool)
    (self : ComposioAPIComponent) (fv : pyval) (w : world) (k : string) (e : exn) :
  api_key self = Some k ->
  k <> "" ->
  ComposioToolSet vendor k = Raise e \/
  (exists toolset,
     ComposioToolSet vendor k = Ok toolset /\
     (get_entity vendor toolset (entity_id self) = Raise e \/
      exists entity,
        get_entity vendor toolset (entity_id self) = Ok entity /\
        get_connections vendor entity = Raise e)) ->
  snd (update_build_config vendor self fv (Some "api_key") w) = Raise e /\
  config (fst (update_build_config vendor self fv (Some "api_key") w)) = config w.
Proof.
  intros Hk Hne Hfail. unfold update_build_config.
  rewrite bool_decide_eq_true_2 by reflexivity.
  rewrite (has_api_key_some self k Hk Hne).
  unfold _update_app_names_with_connected_status, _get_connected_app_names_for_entity,
    _build_wrapper, client_get_entity.
  rewrite Hk.
  destruct Hfail as [Hts | (toolset & Hts & [Hen | (entity & Hen & Hconns)])].
  - erewrite bind_raise
      by (apply bind_raise, bind_raise; rewrite sdk_run, Hts; reflexivity).
    split; reflexivity.
  - erewrite bind_raise
      by (apply bind_raise;
          erewrite bind_ok by (rewrite sdk_run, Hts; reflexivity);
          apply bind_raise; rewrite sdk_run, Hen; reflexivity).
    split; reflexivity.
  - erewrite bind_raise
      by (apply bind_raise;
          erewrite bind_ok by (rewrite sdk_run, Hts; reflexivity);
          erewrite bind_ok by (rewrite sdk_run, Hen; reflexivity);
          apply bind_raise; rewrite sdk_run, Hconns; reflexivity).
    split; reflexivity.
Qed.

Lemma api_key_update_passes_sdk_errors_on_witness :
  snd (update_build_config
         (Sample.sdk_of (fun _ => Ok tt) (fun _ => Ok []) (fun _ => Ok Sample.oauth_link)
            (Raise (VendorError "unauthorized")))
         Sample.github VNone (Some "api_key") (enter Sample.config0))
  = Raise (VendorError "unauthorized").
Proof.
  refine (proj1 (api_key_update_passes_sdk_errors_on
                   (Sample.sdk_of (fun _ => Ok tt) (fun _ => Ok [])
                      (fun _ => Ok Sample.oauth_link)
                      (Raise (VendorError "unauthorized")))
                   Sample.github VNone (enter Sample.config0) "secret"
                   (VendorError "unauthorized") eq_refl _ _)).
  - discriminate.
  - right. exists "secret". split; [reflexivity|]. right.
    exists "default". split; reflexivity.
Defined.

(** X9: on a dictionary without the [app_names] field, an [api_key]
    update asks the SDK for the connections and then raises [KeyError] for that
    field; the dictionary is as it was. *)
Theorem api_key_update_without_app_names
    {ToolSet Entity Tool : Type} (vendor : Vendor ToolSet Entity Tool)
    (self : ComposioAPIComponent) (fv : pyval) (bc : build_config)
    (k : string) (toolset : ToolSet) (entity : Entity) (connections : list string) :
  session vendor self k toolset entity ->
  k <> "" ->
  get_connections vendor entity = Ok connections ->
  bc !! "app_names" = None ->
  update_build_config vendor self fv (Some "api_key") (enter bc)
  = (logged CallGetConnections (in_session self k (enter bc)),
     Raise (KeyError "app_names")).
Proof.
  intros Hsession Hne Hconns Hnone. unfold update_build_config.
  rewrite bool_decide_eq_true_2 by reflexivity.
  rewrite (has_api_key_some self k) by (try apply Hsession; assumption).
  apply bind_raise. unfold _update_app_names_with_connected_status.
  erewrite bind_ok
    by (apply (connected_app_names_run vendor self k toolset entity Hsession);
        exact Hconns).
  apply bind_raise, set_item_missing. exact Hnone.
Qed.

Lemma api_key_update_without_app_names_witness :
  update_build_config Sample.connected_sdk Sample.github VNone (Some "api_key") (enter ∅)
  = ({| config := ∅;
        calls := [CallComposioToolSet "secret"; CallGetEntity "default";
                  CallGetConnections] |},
     Raise (KeyError "app_names")).
Proof.
  apply (api_key_update_without_app_names Sample.connected_sdk Sample.github VNone ∅
           "secret" "secret" "default" ["github"; "slack"; "github"]).
  - repeat split; reflexivity.
  - discriminate.
  - reflexivity.
  - reflexivity.
Defined.

(** ** [_check_for_authorization] and [build_tool] beside the dictionary *)

Lemma reads_ret {A} (a : A) : reads_only (ret a).
Proof. intros w w' r [= <- _]. reflexivity. Qed.

Lemma reads_raise {A} e : reads_only (@raise A e).
Proof. intros w w' r [= <- _]. reflexivity. Qed.

Lemma reads_sdk {A} c (r : result A) : reads_only (sdk c r).
Proof. intros w w' r' [= <- _]. reflexivity. Qed.

Lemma reads_index0 {A} (l : list A) : reads_only (index0 l).
Proof. destruct l; [apply reads_raise | apply reads_ret]. Qed.

Lemma reads_bind {A B} (m : M A) (k : A -> M B) :
  reads_only m -> (forall a, reads_only (k a)) -> reads_only (bind m k).
Proof.
  intros Hm Hk w w' r H. unfold bind in H.
  destruct (m w) as [w1 [a|e]] eqn:Hmw.
  - rewrite (Hk a _ _ _ H). exact (Hm _ _ _ Hmw).
  - injection H as <- _. exact (Hm _ _ _ Hmw).
Qed.

Lemma reads_try_except {A} (m : M A) h :
  reads_only m -> (forall e, reads_only (h e)) -> reads_only (try_except m h).
Proof.
  intros Hm Hh w w' r H. unfold try_except in H.
  destruct (m w) as [w1 [a|e]] eqn:Hmw.
  - injection H as <- _. exact (Hm _ _ _ Hmw).
  - rewrite (Hh e _ _ _ H). exact (Hm _ _ _ Hmw).
Qed.

Create HintDb reads discriminated.
#[local] Hint Resolve reads_ret reads_raise reads_sdk reads_index0 : reads.

Ltac reads_step :=
  first
    [ apply reads_bind; [| intros ?]
    | apply reads_try_except; [| intros ?]
    | solve [auto with reads]
    | match goal with
      | |- reads_only (if ?b then _ else _) => destruct b
      | |- reads_only (match ?x with _ => _ end) => destruct x
      end ].

(** X10: [_check_for_authorization] and [build_tool] never assign to the
    dictionary, whatever the SDK answers. *)
Theorem status_string_and_tools_leave_the_dictionary
    {ToolSet Entity Tool : Type} (vendor : Vendor ToolSet Entity Tool)
    (self : ComposioAPIComponent) (app : string) (w : world) :
  config (fst (_check_for_authorization vendor self app w)) = config w /\
  config (fst (build_tool vendor self w)) = config w.
Proof.
  split.
  - destruct (_check_for_authorization vendor self app w) as [w' r] eqn:Hrun.
    revert w w' r Hrun. change (reads_only (_check_for_authorization vendor self app)).
    unfold _check_for_authorization, _handle_authorization_failure,
      _process_api_key_auth, _initiate_default_connection, _build_wrapper,
      client_get_entity, entity_get_connection, client_apps_get,
      entity_initiate_connection.
    repeat reads_step.
  - destruct (build_tool vendor self w) as [w' r] eqn:Hrun.
    revert w w' r Hrun. change (reads_only (build_tool vendor self)).
    unfold build_tool, _build_wrapper. repeat reads_step.
Qed.

(** X11: [_check_for_authorization] raises exactly what the toolset
    constructor or [get_entity] raises, both being outside its [try]; once it
    holds the entity it always returns a status string. *)
Theorem check_for_authorization_raises_only_at_setup
    {ToolSet Entity Tool : Type} (vendor : Vendor ToolSet Entity Tool)
    (self : ComposioAPIComponent) (app : string) (w : world) (k : string) :
  api_key self = Some k ->
  match ComposioToolSet vendor k with
  | Raise e => snd (_check_for_authorization vendor self app w) = Raise e
  | Ok toolset =>
      match get_entity vendor toolset (entity_id self) with
      | Raise e => snd (_check_for_authorization vendor self app w) = Raise e
      | Ok _ => exists status, snd (_check_for_authorization vendor self app w) = Ok status
      end
  end.
Proof.
  intros Hk.
  destruct (ComposioToolSet vendor k) as [toolset|e] eqn:Hts.
  2:{ unfold _check_for_authorization.
      erewrite bind_raise
        by (unfold _build_wrapper; rewrite Hk, sdk_run, Hts; reflexivity).
      reflexivity. }
  destruct (get_entity vendor toolset (entity_id self)) as [entity|e] eqn:Hen.
  2:{ unfold _check_for_authorization.
      erewrite bind_ok
        by (unfold _build_wrapper; rewrite Hk, sdk_run, Hts; reflexivity).
      erewrite bind_raise
        by (unfold client_get_entity; rewrite sdk_run, Hen; reflexivity).
      reflexivity. }
  assert (Hs : session vendor self k toolset entity) by (repeat split; assumption).
  destruct (get_connection vendor entity app) as [[]|e0] eqn:Hconn.
  - rewrite (check_for_authorization_connected vendor self k toolset entity Hs)
      by exact Hconn.
    eexists. reflexivity.
  - rewrite (check_for_authorization_lookup_raises vendor self k toolset entity Hs app e0)
      by exact Hconn.
    destruct (handle_authorization_failure_inspects vendor self toolset entity app
                (logged (CallGetConnection app) (in_session self k w)))
      as (w1 & status & -> & _).
    exists status. reflexivity.
Qed.

Lemma check_for_authorization_raises_only_at_setup_witness :
  exists status,
    snd (_check_for_authorization Sample.no_catalog_sdk Sample.github "GITHUB"
           (enter Sample.config0)) = Ok status.
Proof.
  exact (check_for_authorization_raises_only_at_setup Sample.no_catalog_sdk Sample.github
           "GITHUB" (enter Sample.config0) "secret" eq_refl).
Defined.

(** X12: for an app whose first auth scheme is not "API_KEY",
    [_check_for_authorization] answers a lookup that raised, whatever it
    raised, with the redirect URL of the connection it opens: the URL itself is
    the status string. *)
Theorem check_for_authorization_returns_the_redirect_url
    {ToolSet Entity Tool : Type} (vendor : Vendor ToolSet Entity Tool)
    (self : ComposioAPIComponent) (app : string) (w : world)
    (k : string) (toolset : ToolSet) (entity : Entity)
    (e0 : exn) (scheme : auth_scheme) (schemes : list auth_scheme)
    (connection : connection_request) :
  session vendor self k toolset entity ->
  get_connection vendor entity app = Raise e0 ->
  apps_get vendor toolset app = Ok (scheme :: schemes) ->
  auth_mode scheme <> "API_KEY" ->
  initiate_connection vendor entity (default_connection_args app) = Ok connection ->
  _check_for_authorization vendor self app w
  = (logged (CallInitiateConnection (default_connection_args app))
       (logged (CallAppsGet app) (logged (CallGetConnection app) (in_session self k w))),
     Ok (redirectUrl connection)).
Proof.
  intros Hs Hconn Happ Hmode Hinit.
  rewrite (check_for_authorization_lookup_raises vendor self k toolset entity Hs app e0)
    by exact Hconn.
  unfold _handle_authorization_failure. apply try_except_ok.
  erewrite bind_ok by (apply apps_get_run; exact Happ).
  erewrite bind_ok by reflexivity.
  apply String.eqb_neq in Hmode. rewrite Hmode.
  unfold _initiate_default_connection.
  erewrite bind_ok by (apply initiate_run; exact Hinit).
  reflexivity.
Qed.

Lemma check_for_authorization_returns_the_redirect_url_witness :
  snd (_check_for_authorization Sample.oauth_sdk Sample.github "GITHUB"
         (enter Sample.config0))
  = Ok "https://auth.example/redirect".
Proof.
  rewrite (check_for_authorization_returns_the_redirect_url Sample.oauth_sdk
             Sample.github "GITHUB" (enter Sample.config0) "secret" "secret" "default"
             Sample.not_found {| auth_mode := "OAUTH2" |} [] Sample.oauth_link).
  - reflexivity.
  - repeat split; reflexivity.
  - reflexivity.
  - reflexivity.
  - discriminate.
  - reflexivity.
Defined.

(** ** The status text taken for an API key *)

Lemma startswith_trans p : forall s q,
  PyStr.startswith s q = true -> PyStr.startswith q p = true ->
  PyStr.startswith s p = true.
Proof.
  induction p as [|a p IH]; intros s q Hsq Hqp; [reflexivity|].
  destruct q as [|b q]; [discriminate|].
  destruct s as [|c s]; [discriminate|].
  simpl in *. apply andb_true_iff in Hsq as [Hbc Hsq].
  apply andb_true_iff in Hqp as [Hab Hqp].
  apply Ascii.eqb_eq in Hbc as ->. rewrite Hab. exact (IH _ _ Hsq Hqp).
Qed.

Lemma contains_shorter p q s :
  PyStr.startswith q p = true ->
  PyStr.contains q s = true -> PyStr.contains p s = true.
Proof.
  intros Hqp. induction s as [|c s IH].
  - simpl. rewrite !orb_false_r. intros Hq. exact (startswith_trans _ _ _ Hq Hqp).
  - rewrite !contains_cons. intros Hq. apply orb_true_iff in Hq as [Hq | Hq].
    + rewrite (startswith_trans _ _ _ Hq Hqp). reflexivity.
    + rewrite (IH Hq). apply orb_true_r.
Qed.

Lemma key_looking_status app status :
  PyStr.contains "http" status = false ->
  PyStr.contains "API Key" status = false ->
  PyStr.contains "CONNECTED" status = false \/ PyStr.contains app status = true ->
  not_a_key app status = false.
Proof.
  intros Hhttp Hprompt Hother. unfold not_a_key.
  assert (Hhttps : PyStr.contains "https" status = false).
  { destruct (PyStr.contains "https" status) eqn:H; [| reflexivity].
    apply (contains_shorter "http") in H; [congruence | reflexivity]. }
  rewrite Hhttp, Hhttps, Hprompt.
  destruct Hother as [-> | ->]; [reflexivity|].
  rewrite andb_false_r. reflexivity.
Qed.

(** X13: for an app whose first auth scheme is "API_KEY" and a prior
    status text that holds neither "http" nor "API Key" nor another app's
    "CONNECTED", [_check_for_authorization] answers a lookup that raised by
    opening a connection with that very text as the API key; it returns
    "<app> CONNECTED" when the SDK accepts it and "Error" when the SDK raises. *)
Theorem check_for_authorization_submits_the_status_as_key
    {ToolSet Entity Tool : Type} (vendor : Vendor ToolSet Entity Tool)
    (self : ComposioAPIComponent) (app : string) (w : world)
    (k : string) (toolset : ToolSet) (entity : Entity)
    (e0 : exn) (scheme : auth_scheme) (schemes : list auth_scheme) (status : string) :
  session vendor self k toolset entity ->
  get_connection vendor entity app = Raise e0 ->
  apps_get vendor toolset app = Ok (scheme :: schemes) ->
  auth_mode scheme = "API_KEY" ->
  auth_status_config self = Some status ->
  PyStr.contains "http" status = false ->
  PyStr.contains "API Key" status = false ->
  PyStr.contains "CONNECTED" status = false \/ PyStr.contains app status = true ->
  calls (fst (_check_for_authorization vendor self app w))
  = (calls w ++ [CallComposioToolSet k; CallGetEntity (entity_id self);
                 CallGetConnection app; CallAppsGet app;
                 CallInitiateConnection (api_key_connection_args app status)])%list /\
  snd (_check_for_authorization vendor self app w)
  = match initiate_connection vendor entity (api_key_connection_args app status) with
    | Ok _ => Ok (app ++ " CONNECTED")
    | Raise _ => Ok "Error"
    end.
Proof.
  intros Hs Hconn Happ Hmode Hst Hhttp Hprompt Hother.
  pose proof (key_looking_status app status Hhttp Hprompt Hother) as Hkey.
  apply String.eqb_eq in Hmode.
  rewrite (check_for_authorization_lookup_raises vendor self k toolset entity Hs app e0)
    by exact Hconn.
  unfold _handle_authorization_failure.
  destruct (initiate_connection vendor entity (api_key_connection_args app status))
    as [connection|e] eqn:Hinit.
  - erewrite try_except_ok
      by (erewrite bind_ok by (apply apps_get_run; exact Happ);
          erewrite bind_ok by reflexivity;
          rewrite Hmode, (process_api_key_auth_key vendor self entity app status)
            by assumption;
          erewrite bind_ok by (apply initiate_run; exact Hinit);
          reflexivity).
    split; [| reflexivity]. simpl. rewrite <- !app_assoc. reflexivity.
  - erewrite try_except_raise
      by (erewrite bind_ok by (apply apps_get_run; exact Happ);
          erewrite bind_ok by reflexivity;
          rewrite Hmode, (process_api_key_auth_key vendor self entity app status)
            by assumption;
          apply bind_raise, initiate_run; exact Hinit).
    split; [| reflexivity]. simpl. rewrite <- !app_assoc. reflexivity.
Qed.

Lemma check_for_authorization_submits_the_status_as_key_witness :
  PyStr.contains "CONNECTED" "Not Connected" = false /\
  snd (_check_for_authorization Sample.api_key_sdk Sample.github "GITHUB"
         (enter Sample.config0))
  = Ok "GITHUB CONNECTED".
Proof.
  assert (Hc : PyStr.contains "CONNECTED" "Not Connected" = false) by reflexivity.
  split; [exact Hc|].
  refine (proj2 (check_for_authorization_submits_the_status_as_key Sample.api_key_sdk
                   Sample.github "GITHUB" (enter Sample.config0) "secret" "secret"
                   "default" Sample.not_found {| auth_mode := "API_KEY" |} []
                   "Not Connected" _ _ _ _ _ _ _ _)).
  - repeat split; reflexivity.
  - reflexivity.
  - reflexivity.
  - reflexivity.
  - reflexivity.
  - reflexivity.
  - reflexivity.
  - left. exact Hc.
Defined.

(** ** From the app dropdown back to the catalog *)

Lemma suffix_free_normalized (self : ComposioAPIComponent) :
  suffix_free (app_names self) ->
  _get_normalized_app_name self = app_names self.
Proof.
  intros [Hup Hlow]. unfold _get_normalized_app_name, PyStr.replace.
  rewrite (replace_from_absent "_CONNECTED" "" _ Hup).
  apply replace_from_absent, Hlow.
Qed.

(** The options of an [api_key] update, with where they come from. *)
Lemma api_key_update_options
    {ToolSet Entity Tool : Type} (vendor : Vendor ToolSet Entity Tool)
    (self : ComposioAPIComponent) (fv : pyval) (bc : build_config)
    (k : string) (toolset : ToolSet) (entity : Entity) (connections : list string) :
  session vendor self k toolset entity ->
  k <> "" ->
  get_connections vendor entity = Ok connections ->
  is_Some (bc !! "app_names") ->
  exists w' connected others,
    update_build_config vendor self fv (Some "api_key") (enter bc)
      = (w', Ok (config w')) /\
    item (config w') "app_names" "options"
      = Some (VList (map (fun app => app ++ "_CONNECTED") connected ++ others)) /\
    (forall app, In app connected -> In app (App_annotations vendor)) /\
    (forall app, In app others -> In app (App_annotations vendor)) /\
    (forall app, In app connected -> In (PyStr.lower app) connections) /\
    (forall app, In app others -> ~ In (PyStr.lower app) connections).
Proof.
  intros Hsession Hk Hconns Happ.
  pose proof (update_api_key_run vendor self k toolset entity Hsession fv bc connections
                Hk Hconns Happ) as Hrun.
  cbv zeta in Hrun.
  set (connected_app_names := elements (list_to_set connections : gset string)) in *.
  set (connected := List.filter (is_connected connected_app_names)
                      (App_annotations vendor)) in *.
  set (others := List.filter (fun app => negb (is_connected connected_app_names app))
                   (App_annotations vendor)) in *.
  eexists _, connected, others.
  split; [exact Hrun|]. cbn [config set_config].
  split; [| split; [| split; [| split]]].
  - rewrite item_assign_other_key by discriminate.
    apply item_assign_same, Happ.
  - intros app Hin. apply filter_In in Hin as [Hin _]. exact Hin.
  - intros app Hin. apply filter_In in Hin as [Hin _]. exact Hin.
  - intros app Hin. apply filter_In in Hin as [_ Hin].
    apply is_connected_spec, Hin.
  - intros app Hin Hlow. apply filter_In in Hin as [_ Hin].
    apply negb_true_iff in Hin. apply is_connected_spec in Hlow.
    unfold connected_app_names in Hin. congruence.
Qed.

(** X14: a display name that holds neither "_CONNECTED" nor "_connected"
    is its own normalized name. *)
Theorem normalization_keeps_suffix_free_names (self : ComposioAPIComponent) :
  suffix_free (app_names self) ->
  _get_normalized_app_name self = app_names self.
Proof. apply suffix_free_normalized. Qed.

Lemma normalization_keeps_suffix_free_names_witness :
  suffix_free "GOOGLE_CALENDAR" /\
  _get_normalized_app_name (Sample.component "GOOGLE_CALENDAR" "Not Connected")
  = "GOOGLE_CALENDAR".
Proof.
  assert (Hfree : suffix_free "GOOGLE_CALENDAR") by (split; reflexivity).
  split; [exact Hfree|].
  exact (normalization_keeps_suffix_free_names
           (Sample.component "GOOGLE_CALENDAR" "Not Connected") Hfree).
Defined.

(** X15: when no app of the catalog holds "_CONNECTED" or "_connected" in
    its name, every option an [api_key] update offers normalizes, once
    selected, to an app of the catalog: an option with the suffix gives the
    connected app it annotates, any other option is a non-connected app and
    gives itself. *)
Theorem offered_apps_normalize_to_catalog_apps
    {ToolSet Entity Tool : Type} (vendor : Vendor ToolSet Entity Tool)
    (self : ComposioAPIComponent) (fv : pyval) (bc : build_config)
    (k : string) (toolset : ToolSet) (entity : Entity) (connections : list string) :
  session vendor self k toolset entity ->
  k <> "" ->
  get_connections vendor entity = Ok connections ->
  is_Some (bc !! "app_names") ->
  Forall suffix_free (App_annotations vendor) ->
  exists w' options,
    update_build_config vendor self fv (Some "api_key") (enter bc)
      = (w', Ok (config w')) /\
    item (config w') "app_names" "options" = Some (VList options) /\
    forall option,
      In option options ->
      In (_get_normalized_app_name (select_app self option)) (App_annotations vendor) /\
      (option = _get_normalized_app_name (select_app self option) ++ "_CONNECTED" /\
       In (PyStr.lower (_get_normalized_app_name (select_app self option))) connections
       \/
       option = _get_normalized_app_name (select_app self option) /\
       ~ In (PyStr.lower option) connections).
Proof.
  intros Hsession Hk Hconns Happ Hfree.
  destruct (api_key_update_options vendor self fv bc k toolset
              entity connections Hsession Hk Hconns Happ)
    as (w' & connected & others & Hrun & Hopts & Hsub1 & Hsub2 & Hin1 & Hin2).
  exists w', (map (fun app => app ++ "_CONNECTED")%string connected ++ others)%list.
  split; [exact Hrun|]. split; [exact Hopts|].
  intros option Hin. rewrite List.Forall_forall in Hfree.
  apply in_app_or in Hin as [Hin | Hin].
  - apply in_map_iff in Hin as (app & <- & Hin).
    assert (Hnorm : _get_normalized_app_name (select_app self (app ++ "_CONNECTED")) = app).
    { apply normalized_upper; [reflexivity | apply Hfree, Hsub1, Hin ..]. }
    rewrite Hnorm. split; [apply Hsub1, Hin|].
    left. split; [reflexivity | apply Hin1, Hin].
  - assert (Hnorm : _get_normalized_app_name (select_app self option) = option).
    { apply suffix_free_normalized. apply Hfree, Hsub2, Hin. }
    rewrite Hnorm. split; [apply Hsub2, Hin|].
    right. split; [reflexivity | apply Hin2, Hin].
Qed.

Lemma offered_apps_normalize_to_catalog_apps_witness :
  Forall suffix_free (App_annotations Sample.connected_sdk) /\
  exists w' options,
    update_build_config Sample.connected_sdk Sample.github VNone (Some "api_key")
      (enter Sample.config0) = (w', Ok (config w')) /\
    item (config w') "app_names" "options" = Some (VList options) /\
    forall option,
      In option options ->
      In (_get_normalized_app_name (select_app Sample.github option))
         (App_annotations Sample.connected_sdk).
Proof.
  assert (Hfree : Forall suffix_free (App_annotations Sample.connected_sdk))
    by (repeat constructor).
  split; [exact Hfree|].
  destruct (offered_apps_normalize_to_catalog_apps Sample.connected_sdk Sample.github
              VNone Sample.config0 "secret" "secret" "default"
              ["github"; "slack"; "github"])
    as (w' & options & Hrun & Hopts & Hall).
  - repeat split; reflexivity.
  - discriminate.
  - reflexivity.
  - eexists; vm_compute; reflexivity.
  - exact Hfree.
  - exists w', options. split; [exact Hrun|]. split; [exact Hopts|].
    intros option Hin. exact (proj1 (Hall option Hin)).
Defined.

(** ** The selected action *)

Lemma startswith_spec p : forall s,
  PyStr.startswith s p = true <-> exists rest, s = p ++ rest.
Proof.
  induction p as [|a p IH]; intros s.
  - split; [intros _; exists s; reflexivity | reflexivity].
  - destruct s as [|b s]; simpl.
    + split; [discriminate | intros [rest H]; discriminate].
    + rewrite andb_true_iff, Ascii.eqb_eq, IH. split.
      * intros [-> [rest ->]]. exists rest. reflexivity.
      * intros [rest H]. rewrite append_cons in H. injection H as -> ->.
        split; [reflexivity | exists rest; reflexivity].
Qed.

(** X16: after an [app_names] update with a usable key, the value of
    [action_names] is a list of one string: the first option, or the empty
    string when no action of the catalog belongs to the app; and the lowercase
    form of every option is the lowercase app name, "_" and a rest. *)
Theorem selected_action_is_first_option_or_blank
    {ToolSet Entity Tool : Type} (vendor : Vendor ToolSet Entity Tool)
    (self : ComposioAPIComponent) (fv : pyval) (bc : build_config) :
  has_api_key self = true ->
  has_status_fields bc ->
  exists w' options,
    update_build_config vendor self fv (Some "app_names") (enter bc)
      = (w', Ok (config w')) /\
    item (config w') "action_names" "options" = Some (VList options) /\
    item (config w') "action_names" "value"
      = Some (VList [match options with
                     | action :: _ => action
                     | [] => ""
                     end]) /\
    forall action,
      In action options ->
      exists rest,
        PyStr.lower action = PyStr.lower (_get_normalized_app_name self) ++ "_" ++ rest.
Proof.
  intros Hkey Hwf.
  destruct (check_auth_status vendor self (_get_normalized_app_name self) (enter bc))
    as [w1 r] eqn:Hcheck.
  pose proof (check_auth_status_fields vendor self _ _ _ _ Hcheck Hwf) as Hwf1.
  assert (Hact : is_Some
            (match r with Ok _ => config w1 | Raise e => with_error e (config w1) end
               !! "action_names")).
  { destruct r as [[]|e]; [apply Hwf1 | apply with_error_fields, Hwf1]. }
  exists (set_config
            (with_actions vendor self
               match r with Ok _ => config w1 | Raise e => with_error e (config w1) end)
            w1),
         (app_action_names vendor self).
  split; [| split; [| split]].
  - erewrite update_app_names_after by eassumption. reflexivity.
  - cbn [config set_config]. apply with_actions_options, Hact.
  - cbn [config set_config]. rewrite with_actions_value by exact Hact.
    destruct (app_action_names vendor self); reflexivity.
  - intros action Hin. unfold app_action_names in Hin.
    apply filter_In in Hin as [_ Hin]. unfold is_app_action in Hin.
    apply startswith_spec in Hin as [rest Hrest]. exists rest.
    rewrite Hrest. clear.
    induction (PyStr.lower (_get_normalized_app_name self)) as [|c s IH];
      [reflexivity|].
    rewrite !append_cons, IH. reflexivity.
Qed.

Lemma selected_action_is_first_option_or_blank_witness :
  has_api_key (Sample.component "NOTION" "Not Connected") = true /\
  has_status_fields Sample.config0 /\
  exists w',
    update_build_config Sample.connected_sdk (Sample.component "NOTION" "Not Connected")
      VNone (Some "app_names") (enter Sample.config0) = (w', Ok (config w')) /\
    item (config w') "action_names" "options" = Some (VList []) /\
    item (config w') "action_names" "value" = Some (VList [""]).
Proof.
  assert (Hk : has_api_key (Sample.component "NOTION" "Not Connected") = true)
    by reflexivity.
  assert (Hf : has_status_fields Sample.config0)
    by (repeat split; eexists; vm_compute; reflexivity).
  repeat (split; [assumption|]).
  destruct (selected_action_is_first_option_or_blank Sample.connected_sdk
              (Sample.component "NOTION" "Not Connected") VNone Sample.config0 Hk Hf)
    as (w' & options & Hrun & _).
  exists w'. split; [exact Hrun|].
  assert (Heq : fst (update_build_config Sample.connected_sdk
                       (Sample.component "NOTION" "Not Connected") VNone
                       (Some "app_names") (enter Sample.config0)) = w')
    by (rewrite Hrun; reflexivity).
  rewrite <- Heq. split; vm_compute; reflexivity.
Defined.

(** ** The connected apps of the entity *)

(** X17: [_get_connected_app_names_for_entity] returns the [appUniqueId]s
    of the entity's connections without repetition: a duplicate-free list with
    the same members as the SDK's answer. *)
Theorem connected_app_names_are_the_distinct_ids
    {ToolSet Entity Tool : Type} (vendor : Vendor ToolSet Entity Tool)
    (self : ComposioAPIComponent) (w : world)
    (k : string) (toolset : ToolSet) (entity : Entity) (connections : list string) :
  session vendor self k toolset entity ->
  get_connections vendor entity = Ok connections ->
  exists names,
    snd (_get_connected_app_names_for_entity vendor self w) = Ok names /\
    List.NoDup names /\
    forall id, In id names <-> In id connections.
Proof.
  intros Hsession Hconns.
  rewrite (connected_app_names_run vendor self k toolset entity Hsession connections)
    by exact Hconns.
  exists (elements (list_to_set connections : gset string)).
  split; [reflexivity|]. split.
  - apply NoDup_ListNoDup, NoDup_elements.
  - intros id. rewrite <- !list_elem_of_In, elem_of_elements, elem_of_list_to_set.
    reflexivity.
Qed.

Lemma connected_app_names_are_the_distinct_ids_witness :
  get_connections Sample.connected_sdk "default" = Ok ["github"; "slack"; "github"] /\
  exists names,
    snd (_get_connected_app_names_for_entity Sample.connected_sdk Sample.github
           (enter Sample.config0)) = Ok names /\
    List.NoDup names /\
    forall id, In id names <-> In id ["github"; "slack"; "github"].
Proof.
  split; [reflexivity|].
  apply (connected_app_names_are_the_distinct_ids Sample.connected_sdk Sample.github
           (enter Sample.config0) "secret" "secret" "default").
  - repeat split; reflexivity.
  - reflexivity.
Defined.
